(** * Silent Print: receipt PDF layout logic

    A shallow embedding of [silent_print/utils/print_format.py]: the receipt
    height estimator, the page option builder, the HTML option merger, the
    PDF renderer and the whitespace cropper, with the properties the
    specification states about them.

    Python dictionaries are finite maps from strings to Python values,
    exceptions are the left injection of a sum type, and the external
    collaborators (the rendering engine, the page library, the inspection
    library, the host framework) are class parameters, so every theorem
    holds for each behaviour they can show. *)

From Stdlib Require Import ZArith QArith Lqa String Ascii List Lia DecimalString.
From stdpp Require Import gmap strings list fin_maps.

Local Open Scope string_scope.

(** ** Python values *)

(** The values that occur in documents and option mappings: [None], booleans,
    numbers, strings and the cookie list [[("sid", sid)]]. *)
Inductive pyval : Type :=
| VNone
| VBool (b : bool)
| VNum (q : Q)
| VStr (s : string)
| VCookies (l : list (string * string)).

(** Python truthiness, as [if v:] and [v or default] read it. *)
Definition truthy (v : pyval) : bool :=
  match v with
  | VNone => false
  | VBool b => b
  | VNum q => negb (Qeq_bool q 0)
  | VStr s => negb (String.eqb s "")
  | VCookies l => match l with [] => false | _ :: _ => true end
  end.

(** [d.get(key)] of a dict: an absent key reads as [None]. *)
Definition py_get (d : gmap string pyval) (key : string) : pyval :=
  default VNone (d !! key).

(** [d.get(key, dflt)]. *)
Definition py_get_default (d : gmap string pyval) (key : string) (dflt : pyval) : pyval :=
  default dflt (d !! key).

(** [d.update(other)]: the entries of [other] win. *)
Definition py_update (d other : gmap string pyval) : gmap string pyval :=
  other ∪ d.

(** [sum(...)] over integers. *)
Definition py_sum (l : list Z) : Z := fold_left Z.add l 0%Z.

(** ** Height Estimator *)

Record HeightConfig : Type := {
  header_height : Z;
  customer_height : Z;
  item_height : Z;
  totals_height : Z;
  payment_base_height : Z;
  payment_line_height : Z;
  footer_height : Z;
  buffer_height : Z;
  min_height : Z;
  max_height : Z
}.

Definition RECEIPT_HEIGHT_CONFIG : HeightConfig := {|
  header_height := 10;
  customer_height := 8;
  item_height := 8;
  totals_height := 20;
  payment_base_height := 10;
  payment_line_height := 5;
  footer_height := 12;
  buffer_height := 5;
  min_height := 60;
  max_height := 500
|}.

(** A document: its [items] and [payments] child rows, each row a mapping
    from field names to values. *)
Record Document : Type := {
  items : list (gmap string pyval);
  payments : list (gmap string pyval)
}.

(** [item.get("discount_percentage")] read as a condition. *)
Definition has_discount (item : gmap string pyval) : bool :=
  truthy (py_get item "discount_percentage").

(** [doc.get("items", []) if doc else []] *)
Definition doc_items (doc : option Document) : list (gmap string pyval) :=
  match doc with Some d => items d | None => [] end.

Definition doc_payments (doc : option Document) : list (gmap string pyval) :=
  match doc with Some d => payments d | None => [] end.

(** The two counts the estimator takes from the document. *)
Definition items_count (doc : option Document) : Z :=
  match doc with Some d => Z.of_nat (length (items d)) | None => 0 end.

Definition items_with_discount (doc : option Document) : Z :=
  py_sum (map (fun _ => 1%Z) (List.filter has_discount (doc_items doc))).

Definition payments_count (doc : option Document) : Z :=
  match doc with Some d => Z.of_nat (length (payments d)) | None => 0 end.

(** [if doc] holds for a document object and fails for [None]; the height is
    an integer throughout, so the final [int(height)] changes nothing. *)
Definition calculate_receipt_height (doc : option Document) : Z :=
  let config := RECEIPT_HEIGHT_CONFIG in
  let height := (header_height config + customer_height config)%Z in
  let height :=
    (height + (items_count doc * item_height config
               + items_with_discount doc * 2))%Z in
  let height := (height + totals_height config)%Z in
  let height :=
    if (0 <? payments_count doc)%Z
    then (height + (payment_base_height config
                    + payments_count doc * payment_line_height config))%Z
    else height in
  let height := (height + footer_height config)%Z in
  let height := (height + buffer_height config)%Z in
  Z.max (min_height config) (Z.min height (max_height config)).

(** ** Strings *)

(** [sub in s] on Python strings: [sub] occurs somewhere in [s]. *)
Fixpoint py_in (sub s : string) : bool :=
  String.prefix sub s ||
  match s with
  | EmptyString => false
  | String _ rest => py_in sub rest
  end.

(** [any(u in s for u in units)]. *)
Definition any_in (units : list string) (s : string) : bool :=
  existsb (fun u => py_in u s) units.


Definition lower_ascii (c : ascii) : ascii :=
  let n := nat_of_ascii c in
  if (65 <=? n)%nat && (n <=? 90)%nat then ascii_of_nat (n + 32) else c.

(** [s.lower()] on ASCII text. *)
Fixpoint lower (s : string) : string :=
  match s with
  | EmptyString => EmptyString
  | String c rest => String (lower_ascii c) (lower rest)
  end.

(** [f"{n}"] for an integer. *)
Definition format_int (n : Z) : string :=
  NilZero.string_of_int (Z.to_int n).

(** [v or dflt] for an optional text field: [None] and [""] are falsy. *)
Definition str_or (v : option string) (dflt : string) : string :=
  match v with
  | Some s => if String.eqb s "" then dflt else s
  | None => dflt
  end.

(** ** Page Option Builder *)

(** The fields of a Silent Print Format that the code reads. *)
Record SilentPrintFormat : Type := {
  page_size : option string;
  custom_width : option string;
  custom_height : option string;
  auto_height : bool;
  crop_whitespace : bool;
  default_print_type : option string
}.

Definition UNITS : list string := ["mm"; "cm"; "in"; "px"].

(** Lines 119-122: [if s and not any(u in str(s) for u in [...]): s = f"{s}mm"]. *)
Definition ensure_unit (s : string) : string :=
  if negb (String.eqb s "") && negb (any_in UNITS s) then s ++ "mm" else s.

Definition get_pdf_options (silent_print_format : SilentPrintFormat)
    (doc : option Document) : gmap string pyval :=
  let options : gmap string pyval :=
    {[ "page-size" := VStr (str_or (page_size silent_print_format) "A4") ]} in
  if bool_decide (page_size silent_print_format = Some "Custom") then
    let custom_width := str_or (custom_width silent_print_format) "80mm" in
    let custom_height :=
      match auto_height silent_print_format, doc with
      | true, Some _ => format_int (calculate_receipt_height doc) ++ "mm"
      | _, _ => str_or (custom_height silent_print_format) "297mm"
      end in
    let custom_width := ensure_unit custom_width in
    let custom_height := ensure_unit custom_height in
    <["page-width" := VStr custom_width]>
    (<["page-height" := VStr custom_height]>
    (<["margin-top" := VStr "0mm"]>
    (<["margin-bottom" := VStr "0mm"]>
    (<["margin-left" := VStr "0mm"]>
    (<["margin-right" := VStr "0mm"]>
    (<["dpi" := VStr "203"]>
    (<["zoom" := VStr "1"]>
    (<["no-pdf-compression" := VStr ""]>
    (<["_is_thermal" := VBool true]> ∅)))))))))
  else options.

(** ** Exceptions *)

(** The exceptions ([Exception] subclasses) that the code raises, catches or
    lets through. *)
Inductive exn : Type :=
| ImportError (msg : string)
| OSError (msg : string)
| ValidationError (msg : string)
| UnboundLocalError (var : string)
| OtherException (msg : string).

(** [str(e)] *)
Definition exn_str (e : exn) : string :=
  match e with
  | ImportError msg | OSError msg | ValidationError msg | OtherException msg => msg
  | UnboundLocalError var =>
      "local variable '" ++ var ++ "' referenced before assignment"
  end.

(** A computation that returns a value or raises. *)
Definition result (A : Type) : Type := exn + A.

Definition ret {A : Type} (a : A) : result A := inr a.
Definition raise {A : Type} (e : exn) : result A := inl e.

Definition bind {A B : Type} (m : result A) (k : A -> result B) : result B :=
  match m with
  | inl e => inl e
  | inr a => k a
  end.

Notation "'let*' x ':=' m 'in' k" := (bind m (fun x => k))
  (at level 10, x name, m at level 100, k at level 200).

(** A [for] loop whose body may raise, over the elements of a list, each
    replaced by what the body leaves of it. *)
Fixpoint for_each {A : Type} (body : A -> result A) (l : list A) : result (list A) :=
  match l with
  | [] => ret []
  | a :: rest =>
      let* a' := body a in
      let* rest' := for_each body rest in
      ret (a' :: rest')
  end.

(** ** External collaborators *)

(** What the code uses of the host framework. [session_sid] is
    [frappe.session.sid] when there is a session, [translate] is [_]. *)
Class Frappe : Type := {
  scrub_urls : string -> string;
  read_options_from_html : string -> string * gmap string pyval;
  session_sid : option string;
  get_wkhtmltopdf_version : list nat;
  translate : string -> string
}.

(** What one call of the rendering engine does: it returns the PDF bytes, or
    it raises, whatever it had produced by then. *)
Inductive engine_outcome : Type :=
| Returned (filedata : list Byte.byte)
| Raised (e : exn) (produced : list Byte.byte).

(** [pdfkit.from_string(html, False, options=...)]. *)
Class PdfKit : Type := {
  from_string : string -> gmap string pyval -> engine_outcome
}.

(** The page library: [PdfReader] parses bytes into pages, a [PdfWriter]
    collects pages and may be encrypted, [get_file_data_from_writer]
    serializes it. *)
Record PdfWriter (page : Type) : Type := {
  writer_pages : list page;
  writer_password : option pyval
}.
Arguments writer_pages {page} _.
Arguments writer_password {page} _.

Class PyPDF2 : Type := {
  pdf_page : Type;
  PdfReader : list Byte.byte -> result (list pdf_page);
  get_file_data_from_writer : PdfWriter pdf_page -> list Byte.byte
}.

(** [PdfWriter()], [writer.add_page(page)], [writer.encrypt(password)]. *)
Definition new_writer {page : Type} : PdfWriter page :=
  {| writer_pages := []; writer_password := None |}.

Definition add_page {page : Type} (w : PdfWriter page) (p : page) : PdfWriter page :=
  {| writer_pages := writer_pages w ++ [p]; writer_password := writer_password w |}.

Definition encrypt {page : Type} (w : PdfWriter page) (password : pyval) : PdfWriter page :=
  {| writer_pages := writer_pages w; writer_password := Some password |}.

(** ** HTML Option Reader and Merger *)

(** The condition of line 318, negated: the key names a margin or a page
    setting. *)
Definition names_margin_or_page (key : string) : bool :=
  py_in "margin" (lower key) || py_in "page" (lower key).

(** Lines 280-289: the thermal settings captured before the merge. *)
Definition thermal_settings_of (options : gmap string pyval) : gmap string pyval :=
  <["margin-top" := py_get_default options "margin-top" (VStr "0mm")]>
  (<["margin-bottom" := py_get_default options "margin-bottom" (VStr "0mm")]>
  (<["margin-left" := py_get_default options "margin-left" (VStr "0mm")]>
  (<["margin-right" := py_get_default options "margin-right" (VStr "0mm")]>
  (<["page-width" := py_get options "page-width"]>
  (<["page-height" := py_get options "page-height"]>
  (<["dpi" := py_get options "dpi"]>
  (<["zoom" := py_get options "zoom"]> ∅))))))).

(** Lines 303-310: [if not options.get(side): options[side] = "15mm"]. *)
Definition default_margin (side : string) (options : gmap string pyval) : gmap string pyval :=
  if truthy (py_get options side) then options else <[side := VStr "15mm"]> options.

(** Lines 291-299: the dict literal that every call merges in. *)
Definition FORCED_OPTIONS : gmap string pyval :=
  <["print-media-type" := VNone]>
  (<["background" := VNone]>
  (<["images" := VNone]>
  (<["quiet" := VNone]>
  (<["encoding" := VStr "UTF-8"]> ∅)))).

Definition prepare_options `{Frappe} (html : string)
    (options : option (gmap string pyval)) : string * gmap string pyval :=
  (* if not options: options = {} *)
  let options : gmap string pyval := default ∅ options in
  (* is_thermal = options.pop("_is_thermal", False) *)
  let is_thermal := truthy (py_get_default options "_is_thermal" (VBool false)) in
  let options := delete "_is_thermal" options in
  let thermal_settings : gmap string pyval :=
    if is_thermal then thermal_settings_of options else ∅ in
  let options := py_update options FORCED_OPTIONS in
  let options :=
    if is_thermal then options
    else default_margin "margin-bottom"
           (default_margin "margin-top"
             (default_margin "margin-left"
               (default_margin "margin-right" options))) in
  let '(html, html_options) := read_options_from_html html in
  let options :=
    if bool_decide (html_options = ∅) then options
    else if is_thermal then
      py_update options
        (filter (fun kv => names_margin_or_page kv.1 = false) html_options)
    else py_update options html_options in
  let options := if is_thermal then py_update options thermal_settings else options in
  let options :=
    match session_sid with
    | Some sid =>
        if String.eqb sid "" then options
        else <["cookie" := VCookies [("sid", sid)]]> options
    | None => options
    end in
  (html, options).

(** ** PDF Renderer *)

Definition PDF_CONTENT_ERRORS : list string :=
  ["ContentNotFoundError"; "ContentOperationNotPermittedError";
   "UnknownContentError"; "RemoteHostClosedError"].

(** [any([error in str(e) for error in PDF_CONTENT_ERRORS])] *)
Definition is_content_error (e : exn) : bool :=
  any_in PDF_CONTENT_ERRORS (exn_str e).

(** [LooseVersion(a) > LooseVersion(b)] on numeric components. *)
Fixpoint version_gt (a b : list nat) : bool :=
  match a, b with
  | [], _ => false
  | _ :: _, [] => true
  | x :: a', y :: b' =>
      if (y <? x)%nat then true
      else if (x <? y)%nat then false
      else version_gt a' b'
  end.

(** [d or {}] *)
Definition dict_or_empty (d : gmap string pyval) : gmap string pyval :=
  if bool_decide (d = ∅) then ∅ else d.

(** The HTML and the options with which [get_pdf] calls the engine
    (lines 221-228 and the argument [options or {}] of line 232). *)
Definition engine_call `{Frappe} (html : string)
    (options : option (gmap string pyval)) : string * gmap string pyval :=
  let html := scrub_urls html in
  let '(html, options) := prepare_options html options in
  let options :=
    py_update options
      (<["disable-javascript" := VStr ""]>
      (<["disable-local-file-access" := VStr ""]> ∅)) in
  let options :=
    if version_gt get_wkhtmltopdf_version [0; 12; 3]%nat
    then py_update options {[ "disable-smart-shrinking" := VStr "" ]}
    else options in
  (html, options).

(** What [get_pdf] returns: serialized bytes, or the caller's accumulator. *)
Inductive pdf_output (page : Type) : Type :=
| FileData (filedata : list Byte.byte)
| Accumulator (output : PdfWriter page).
Arguments FileData {page} _.
Arguments Accumulator {page} _.

(** Reading the local variable [reader], which is unbound until line 235
    has run. *)
Definition reader_pages {page : Type} (reader : option (list page)) : result (list page) :=
  match reader with
  | Some pages => ret pages
  | None => raise (UnboundLocalError "reader")
  end.

(** [for page in reader.pages: output.add_page(page)] *)
Definition add_pages {page : Type} (reader : option (list page))
    (output : PdfWriter page) : result (PdfWriter page) :=
  let* pages := reader_pages reader in
  ret (fold_left add_page pages output).

(** Lines 230-246. The locals when the [try] statement is left normally:
    [filedata], [reader] (bound or not) and the accumulator. [filedata] is
    assigned only when the engine returns, [reader] only when the parse
    returns. *)
Definition render `{PdfKit, PyPDF2, Frappe} (html : string) (options : gmap string pyval)
    (output : option (PdfWriter pdf_page))
  : result (list Byte.byte * option (list pdf_page) * option (PdfWriter pdf_page)) :=
  let filedata : list Byte.byte := [] in
  let attempt : (exn * list Byte.byte) + (list Byte.byte * list pdf_page) :=
    match from_string html (dict_or_empty options) with
    | Raised e _ => inl (e, filedata)
    | Returned filedata =>
        match PdfReader filedata with
        | inl e => inl (e, filedata)
        | inr pages => inr (filedata, pages)
        end
    end in
  match attempt with
  | inr (filedata, pages) => ret (filedata, Some pages, output)
  | inl (OSError msg, filedata) =>
      let reader : option (list pdf_page) := None in
      if is_content_error (OSError msg) then
        match filedata with
        | [] =>
            raise (ValidationError
                     (translate "PDF generation failed because of broken image links"))
        | _ :: _ =>
            match output with
            | Some w =>
                let* w' := add_pages reader w in
                ret (filedata, reader, Some w')
            | None => ret (filedata, reader, None)
            end
        end
      else raise (OSError msg)
  | inl (e, _) => raise e
  end.

(** [output] is [None] or a writer object, which [if output:] takes as true.
    Under Python 3 the [six.PY2] branch of line 250 is dead. *)
Definition get_pdf `{PdfKit, PyPDF2, Frappe} (html : string)
    (options : option (gmap string pyval)) (output : option (PdfWriter pdf_page))
  : result (pdf_output pdf_page) :=
  let '(html, options) := engine_call html options in
  let* locals := render html options output in
  let '(filedata, reader, output) := locals in
  (* lines 248-251: password = options["password"] *)
  let password : option pyval := options !! "password" in
  match output with
  | Some w =>
      let* w' := add_pages reader w in
      ret (Accumulator w')
  | None =>
      let writer := new_writer in
      let* writer := add_pages reader writer in
      let writer :=
        match password with
        | Some pw => encrypt writer pw
        | None => writer
        end in
      let filedata := get_file_data_from_writer writer in
      ret (FileData filedata)
  end.

(** ** Whitespace Cropper *)

(** [fitz.Rect(x0, y0, x1, y1)] *)
Record Rect : Type := {
  x0 : Q;
  y0 : Q;
  x1 : Q;
  y1 : Q
}.

(** A text line and a content block of [page.get_text("dict")["blocks"]]:
    either may carry a ["bbox"] entry [(x0, y0, x1, y1)], a block may carry
    ["lines"]. *)
Record Line : Type := {
  line_bbox : option (Q * Q * Q * Q)
}.

Record Block : Type := {
  block_bbox : option (Q * Q * Q * Q);
  block_lines : option (list Line)
}.

(** [bbox[3]] *)
Definition bbox_bottom (bbox : Q * Q * Q * Q) : Q := snd bbox.

(** [max(a, b)] on numbers: [b] only when it is greater. *)
Definition py_max (a b : Q) : Q :=
  if Qlt_le_dec a b then b else a.

(** The inspection library. [import_fitz] is the [import] statement,
    [fitz_open] parses the bytes into the document's pages, [tobytes]
    serializes them and [close] releases the document. *)
Class Fitz : Type := {
  fitz_page : Type;
  import_fitz : result unit;
  fitz_open : list Byte.byte -> result (list fitz_page);
  get_text_blocks : fitz_page -> result (list Block);
  page_rect : fitz_page -> Rect;
  rect_height : Rect -> Q;
  set_cropbox : fitz_page -> Rect -> result fitz_page;
  tobytes : list fitz_page -> result (list Byte.byte);
  close : list fitz_page -> result unit
}.

(** Lines 170-172: the lines of a block that has no ["bbox"]. *)
Definition lowest_of_lines (max_y : Q) (lines : list Line) : Q :=
  fold_left
    (fun max_y line =>
       match line_bbox line with
       | Some bbox => py_max max_y (bbox_bottom bbox)
       | None => max_y
       end)
    lines max_y.

(** Lines 165-172: the lowest point of the content of a page. *)
Definition lowest_point (blocks : list Block) : Q :=
  fold_left
    (fun max_y block =>
       match block_bbox block with
       | Some bbox => py_max max_y (bbox_bottom bbox)
       | None =>
           match block_lines block with
           | Some lines => lowest_of_lines max_y lines
           | None => max_y
           end
       end)
    blocks 0%Q.

(** Lines 174-185, once [max_y] is known: the new crop box, or [None] when
    the page is to be left as it is. *)
Definition crop_decision `{Fitz} (rect : Rect) (max_y : Q) : option Rect :=
  if Qlt_le_dec 0 max_y then
    let max_y := (max_y + 15)%Q in
    if Qlt_le_dec 20 (rect_height rect - max_y) then
      Some {| x0 := x0 rect; y0 := y0 rect; x1 := x1 rect; y1 := max_y |}
    else None
  else None.

(** The body of the loop of line 154, for one page. *)
Definition crop_page `{Fitz} (page : fitz_page) : result fitz_page :=
  let* blocks := get_text_blocks page in
  match blocks with
  | [] => ret page
  | _ :: _ =>
      match crop_decision (page_rect page) (lowest_point blocks) with
      | Some new_rect => set_cropbox page new_rect
      | None => ret page
      end
  end.

(** The [try] block of lines 148-190. *)
Definition crop_body `{Fitz} (pdf_bytes : list Byte.byte) : result (list Byte.byte) :=
  let* _ := import_fitz in
  let* pdf_doc := fitz_open pdf_bytes in
  let* pdf_doc := for_each crop_page pdf_doc in
  let* output := tobytes pdf_doc in
  let* _ := close pdf_doc in
  ret output.

(** One [frappe.log_error(message, title)]. *)
Definition log_entry : Type := (string * string)%type.

(** [crop_pdf_whitespace] with its two handlers: the bytes it returns and
    what it logs. *)
Definition crop_pdf_whitespace `{Fitz} (pdf_bytes : list Byte.byte)
  : list Byte.byte * list log_entry :=
  match crop_body pdf_bytes with
  | inr output => (output, [])
  | inl (ImportError _) =>
      (pdf_bytes,
       [("PyMuPDF (fitz) not installed. PDF cropping disabled.", "Silent Print")])
  | inl e =>
      (pdf_bytes, [("PDF cropping failed: " ++ exn_str e, "Silent Print")])
  end.

(** ** Callers *)

(** What [create_pdf] and [print_silently] use of the host: the HTML of a
    print ([frappe.get_print]), [frappe.db.exists], [frappe.get_doc] for a
    Silent Print Format and for the printed document,
    [frappe.db.get_single_value] and [base64.b64encode(...).decode()]. *)
Class Desk : Type := {
  get_print : string -> string -> string -> option Document -> Z -> result string;
  db_exists : string -> string -> bool;
  get_format_doc : string -> result SilentPrintFormat;
  get_doc : string -> string -> result Document;
  get_single_value : string -> string -> pyval;
  b64encode : list Byte.byte -> string
}.

(** The dict that [create_pdf] returns. *)
Record PrintJob : Type := {
  pdf_base64 : string;
  print_type : option string
}.

(** Lines 83-88: the document for the height estimate. A failing load is
    swallowed and leaves [None]. *)
Definition load_actual_doc `{Desk} (silent_print_format_doc : SilentPrintFormat)
    (doctype name : string) (doc : option Document) : option Document :=
  if auto_height silent_print_format_doc then
    match doc with
    | Some d => Some d
    | None =>
        match get_doc doctype name with
        | inr d => Some d
        | inl _ => None
        end
    end
  else None.

(** [create_pdf]: [None] when the format does not exist, else the encoded
    PDF with the format's print type, and what the cropper logged. Called
    without an accumulator [get_pdf] returns bytes, so the last branch,
    where [b64encode] would be handed a writer, is never taken. *)
Definition create_pdf `{Desk, PdfKit, PyPDF2, Frappe, Fitz}
    (doctype name silent_print_format : string) (doc : option Document)
    (no_letterhead : Z) : result (option PrintJob * list log_entry) :=
  let* html := get_print doctype name silent_print_format doc no_letterhead in
  if negb (db_exists "Silent Print Format" silent_print_format) then ret (None, [])
  else
    let* silent_print_format_doc := get_format_doc silent_print_format in
    let actual_doc := load_actual_doc silent_print_format_doc doctype name doc in
    let options := get_pdf_options silent_print_format_doc actual_doc in
    let* pdf := get_pdf html (Some options) None in
    match pdf with
    | FileData pdf =>
        let '(pdf, logged) :=
          if crop_whitespace silent_print_format_doc
          then crop_pdf_whitespace pdf
          else (pdf, []) in
        ret (Some {| pdf_base64 := b64encode pdf;
                     print_type := default_print_type silent_print_format_doc |},
             logged)
    | Accumulator _ =>
        raise (OtherException "a bytes-like object is required, not 'PdfWriter'")
    end.

(** One [frappe.publish_realtime(event, message, user=user)]. *)
Record Realtime : Type := {
  event : string;
  message : gmap string pyval;
  user : pyval
}.

Definition py_of_option (v : option string) : pyval :=
  match v with Some s => VStr s | None => VNone end.

(** [print_silently]: what it publishes. The argument [print_type] is in
    the signature and nowhere in the body; subscripting the [None] that
    [create_pdf] returns for a missing format is a [TypeError]. *)
Definition print_silently `{Desk, PdfKit, PyPDF2, Frappe, Fitz}
    (doctype name print_format print_type : string)
  : result (Realtime * list log_entry) :=
  let user := get_single_value "Silent Print Settings" "print_user" in
  let tab_id := get_single_value "Silent Print Settings" "tab_id" in
  let* created := create_pdf doctype name print_format None 0 in
  match created with
  | (Some {| pdf_base64 := pdf_pdf_base64; print_type := pdf_print_type |}, logged) =>
      let data : gmap string pyval :=
        <["doctype" := VStr doctype]>
        (<["name" := VStr name]>
        (<["print_format" := VStr print_format]>
        (<["print_type" := py_of_option pdf_print_type]>
        (<["tab_id" := tab_id]>
        (<["pdf" := VStr pdf_pdf_base64]> ∅))))) in
      ret ({| event := "print-silently"; message := data; user := user |}, logged)
  | (None, _) => raise (OtherException "'NoneType' object is not subscriptable")
  end.

(** ** Instances for the examples *)

(** A host whose HTML reader finds the directives [margin-top: 25mm],
    [page-width: 210mm] and [orientation: Landscape], with a session. *)
Definition example_html_options : gmap string pyval :=
  <["margin-top" := VStr "25mm"]>
  (<["page-width" := VStr "210mm"]>
  (<["orientation" := VStr "Landscape"]> ∅)).

Definition example_frappe : Frappe := {|
  scrub_urls := fun html => html;
  read_options_from_html := fun html => (html, example_html_options);
  session_sid := Some "abc";
  get_wkhtmltopdf_version := [0; 12; 6]%nat;
  translate := fun msg => msg
|}.

(** The options of a thermal format 72mm wide and 110mm high. *)
Definition example_format : SilentPrintFormat := {|
  page_size := Some "Custom";
  custom_width := Some "72";
  custom_height := Some "110";
  auto_height := false;
  crop_whitespace := true;
  default_print_type := None
|}.

(** A custom format whose width was typed in as "72 points". *)
Definition example_points_format : SilentPrintFormat := {|
  page_size := Some "Custom";
  custom_width := Some "72 points";
  custom_height := None;
  auto_height := false;
  crop_whitespace := false;
  default_print_type := None
|}.

Definition example_thermal_options : gmap string pyval :=
  get_pdf_options example_format None.

(** Pages are numbered; the parser reads one page per byte. *)
Definition example_pypdf2 : PyPDF2 := {|
  pdf_page := nat;
  PdfReader := fun filedata => ret (seq 0 (length filedata));
  get_file_data_from_writer := fun w => repeat Byte.x00 (length (writer_pages w))
|}.

(** An engine that reports a missing image after two pages. *)
Definition example_failing_pdfkit : PdfKit := {|
  from_string := fun _ _ =>
    Raised (OSError "wkhtmltopdf reported an error: ContentNotFoundError")
           [Byte.x25; Byte.x50]
|}.

(** An engine that returns three pages. *)
Definition example_pdfkit : PdfKit := {|
  from_string := fun _ _ => Returned [Byte.x25; Byte.x50; Byte.x44]
|}.

(** An inspection library whose pages are a rectangle and the blocks found
    on it; setting the crop box replaces the rectangle. *)
Definition example_fitz (available : bool) : Fitz := {|
  fitz_page := Rect * list Block;
  import_fitz :=
    if available then ret tt else raise (ImportError "No module named 'fitz'");
  fitz_open := fun _ => ret [];
  get_text_blocks := fun page => ret (snd page);
  page_rect := fun page => fst page;
  rect_height := fun rect => (y1 rect - y0 rect)%Q;
  set_cropbox := fun page rect => ret (rect, snd page);
  tobytes := fun _ => ret [];
  close := fun _ => ret tt
|}.

(** A page 200 by 100 points whose only block ends at [bottom]. *)
Definition example_page (bottom : Q) : Rect * list Block :=
  ({| x0 := 0; y0 := 0; x1 := 200; y1 := 100 |},
   [{| block_bbox := Some (10, 10, 190, bottom)%Q; block_lines := None |}]).

(** A host with one format, "Receipt", the thermal example format, whose
    printed documents cannot be loaded. *)
Definition example_desk : Desk := {|
  get_print := fun _ _ _ _ _ => ret "<html>";
  db_exists := fun _ name => String.eqb name "Receipt";
  get_format_doc := fun _ => ret example_format;
  get_doc := fun _ _ => raise (OtherException "DoesNotExistError");
  get_single_value := fun _ field => VStr field;
  b64encode := fun pdf => string_of_list_ascii (map (fun _ => "A"%char) pdf)
|}.

(** The four margins after lines 303-310, before the HTML is read. *)
Definition with_default_margins (options : gmap string pyval) : gmap string pyval :=
  default_margin "margin-bottom"
    (default_margin "margin-top"
      (default_margin "margin-left"
        (default_margin "margin-right" options))).

(** One round of the loop of line 166. *)
Definition lowest_step (max_y : Q) (block : Block) : Q :=
  match block_bbox block with
  | Some bbox => py_max max_y (bbox_bottom bbox)
  | None =>
      match block_lines block with
      | Some lines => lowest_of_lines max_y lines
      | None => max_y
      end
  end.

(** An inspection library that finds the pages [pdf_doc] in any bytes and
    serializes a document to one zero byte per page. *)
Definition example_fitz_with (pdf_doc : list (Rect * list Block)) : Fitz := {|
  fitz_page := Rect * list Block;
  import_fitz := ret tt;
  fitz_open := fun _ => ret pdf_doc;
  get_text_blocks := fun page => ret (snd page);
  page_rect := fun page => fst page;
  rect_height := fun rect => (y1 rect - y0 rect)%Q;
  set_cropbox := fun page rect => ret (rect, snd page);
  tobytes := fun pdf_doc => ret (repeat Byte.x00 (length pdf_doc));
  close := fun _ => ret tt
|}.

(** A literal key is none of the literal keys of a list. *)
Ltac key_not_listed :=
  rewrite !not_elem_of_cons; repeat split; try discriminate; apply not_elem_of_nil.

(** * Properties *)

(** ** Height Estimator *)

Lemma py_sum_from (l : list Z) (a : Z) :
  fold_left Z.add l a = (a + py_sum l)%Z.
Proof.
  unfold py_sum. revert a.
  induction l as [|x l IH]; intros a; simpl.
  - lia.
  - rewrite (IH (a + x)%Z), (IH (0 + x)%Z). lia.
Qed.

Lemma py_sum_ones {A : Type} (l : list A) :
  py_sum (map (fun _ => 1%Z) l) = Z.of_nat (length l).
Proof.
  induction l as [|x l IH].
  - reflexivity.
  - unfold py_sum. simpl map. simpl fold_left.
    rewrite py_sum_from, IH. simpl length. lia.
Qed.

Lemma items_with_discount_length (doc : option Document) :
  items_with_discount doc
  = Z.of_nat (length (List.filter has_discount (doc_items doc))).
Proof. unfold items_with_discount. apply py_sum_ones. Qed.

(** The height before the clamp, as a formula in the three counts. *)
Lemma calculate_receipt_height_formula (doc : option Document) :
  calculate_receipt_height doc
  = Z.max 60 (Z.min
      (55 + 8 * items_count doc + 2 * items_with_discount doc
       + (if (0 <? payments_count doc)%Z then 10 + 5 * payments_count doc else 0))
      500).
Proof.
  unfold calculate_receipt_height. cbn [RECEIPT_HEIGHT_CONFIG header_height
    customer_height item_height totals_height payment_base_height
    payment_line_height footer_height buffer_height min_height max_height].
  destruct (0 <? payments_count doc)%Z; f_equal; f_equal; lia.
Qed.

(** C6: a document with no items and no payments, and an absent document,
    get exactly the configured minimum height, 60. *)
Theorem empty_document_gets_min_height (doc : option Document) :
  doc_items doc = [] ->
  doc_payments doc = [] ->
  calculate_receipt_height doc = min_height RECEIPT_HEIGHT_CONFIG
  /\ calculate_receipt_height doc = 60%Z.
Proof.
  intros Hitems Hpayments.
  assert (Hi : items_count doc = 0%Z).
  { destruct doc as [d|]; simpl in *; [rewrite Hitems|]; reflexivity. }
  assert (Hp : payments_count doc = 0%Z).
  { destruct doc as [d|]; simpl in *; [rewrite Hpayments|]; reflexivity. }
  assert (Hd : items_with_discount doc = 0%Z).
  { rewrite items_with_discount_length, Hitems. reflexivity. }
  rewrite calculate_receipt_height_formula, Hi, Hp, Hd.
  split; reflexivity.
Qed.

Lemma empty_document_gets_min_height_witness :
  calculate_receipt_height None = 60%Z
  /\ calculate_receipt_height (Some {| items := []; payments := [] |}) = 60%Z.
Proof.
  split.
  - apply (empty_document_gets_min_height None); reflexivity.
  - apply (empty_document_gets_min_height (Some {| items := []; payments := [] |}));
      reflexivity.
Defined.

(** C9: with the payments and the number of discounted items held fixed
    (or grown), a document with more items never gets a smaller height,
    clamp included. *)
Theorem height_monotone_in_item_count (doc1 doc2 : option Document) :
  (items_count doc1 <= items_count doc2)%Z ->
  (items_with_discount doc1 <= items_with_discount doc2)%Z ->
  payments_count doc1 = payments_count doc2 ->
  (calculate_receipt_height doc1 <= calculate_receipt_height doc2)%Z.
Proof.
  intros Hitems Hdiscount Hpayments.
  rewrite !calculate_receipt_height_formula, Hpayments.
  destruct (0 <? payments_count doc2)%Z; lia.
Qed.

(** Adding item rows to a document is such a change. *)
Lemma height_monotone_append (d : Document) (extra : list (gmap string pyval)) :
  (calculate_receipt_height (Some d)
   <= calculate_receipt_height
        (Some {| items := items d ++ extra; payments := payments d |}))%Z.
Proof.
  rewrite !calculate_receipt_height_formula, !items_with_discount_length.
  simpl. rewrite List.filter_app, !length_app.
  destruct (0 <? Z.of_nat (length (payments d)))%Z; lia.
Qed.

Lemma height_monotone_in_item_count_witness :
  (calculate_receipt_height (Some {| items := [∅]; payments := [∅] |})
   <= calculate_receipt_height (Some {| items := [∅; ∅; ∅]; payments := [∅] |}))%Z.
Proof.
  apply height_monotone_in_item_count.
  - vm_compute. discriminate.
  - vm_compute. discriminate.
  - reflexivity.
Defined.

(** The specification's worked example: five plain items and one payment
    give 110. *)
Example height_five_items_one_payment :
  calculate_receipt_height
    (Some {| items := [∅; ∅; ∅; ∅; ∅]; payments := [∅] |}) = 110%Z.
Proof. vm_compute. reflexivity. Qed.

(** The estimate always lies between the configured minimum and maximum,
    and a document whose sections add up to more than the maximum gets
    exactly the maximum. *)
Theorem height_clamped (doc : option Document) :
  (min_height RECEIPT_HEIGHT_CONFIG <= calculate_receipt_height doc
   <= max_height RECEIPT_HEIGHT_CONFIG)%Z
  /\ ((500 <= 55 + 8 * items_count doc + 2 * items_with_discount doc
              + (if (0 <? payments_count doc)%Z
                 then 10 + 5 * payments_count doc else 0))%Z ->
      calculate_receipt_height doc = max_height RECEIPT_HEIGHT_CONFIG).
Proof.
  rewrite calculate_receipt_height_formula. simpl min_height. simpl max_height.
  split; [|intros Hlarge]; lia.
Qed.

(** With [auto_height] set, five plain items and one payment give a page
    height of "110mm". *)
Theorem auto_height_page_height :
  get_pdf_options
    {| page_size := Some "Custom"; custom_width := None; custom_height := Some "200";
       auto_height := true; crop_whitespace := false; default_print_type := None |}
    (Some {| items := [∅; ∅; ∅; ∅; ∅]; payments := [∅] |}) !! "page-height"
  = Some (VStr "110mm").
Proof. vm_compute. reflexivity. Qed.

(** Replacing discounted rows by a larger number of plain rows is not such
    a change: the discount lines are lost, which is why the number of
    discounted items is held fixed above. *)
Example height_discount_rows_count :
  let discounted : gmap string pyval := {[ "discount_percentage" := VNum 10 ]} in
  calculate_receipt_height
    (Some {| items := repeat discounted 5; payments := [] |}) = 105%Z
  /\ calculate_receipt_height
       (Some {| items := repeat ∅ 6; payments := [] |}) = 103%Z.
Proof. split; vm_compute; reflexivity. Qed.

(** ** Page Option Builder *)

(** C5: for a page size other than "Custom" the options are the single
    entry [page-size], the configured size or "A4", and nothing else: no
    margins, page dimensions, dpi, zoom or thermal marker. *)
Theorem standard_format_options (silent_print_format : SilentPrintFormat)
    (doc : option Document) :
  page_size silent_print_format <> Some "Custom" ->
  let options := get_pdf_options silent_print_format doc in
  options = {[ "page-size" := VStr (str_or (page_size silent_print_format) "A4") ]}
  /\ size options = 1%nat
  /\ (forall key, key <> "page-size" -> options !! key = None).
Proof.
  intros Hsize options. subst options. unfold get_pdf_options.
  rewrite bool_decide_eq_false_2 by exact Hsize.
  split; [reflexivity|]. split.
  - apply map_size_singleton.
  - intros key Hkey. apply lookup_singleton_ne. congruence.
Qed.

Lemma standard_format_options_witness :
  get_pdf_options
    {| page_size := None; custom_width := Some "72"; custom_height := None;
       auto_height := true; crop_whitespace := false; default_print_type := None |}
    None
  = {[ "page-size" := VStr "A4" ]}.
Proof.
  apply (standard_format_options
    {| page_size := None; custom_width := Some "72"; custom_height := None;
       auto_height := true; crop_whitespace := false; default_print_type := None |}
    None).
  discriminate.
Defined.

(** The recognized unit is looked for anywhere in the text. *)
Lemma ensure_unit_spec (s : string) :
  s <> "" ->
  ensure_unit s = if any_in UNITS s then s else s ++ "mm".
Proof.
  intros Hs. unfold ensure_unit.
  destruct (String.eqb_spec s "") as [->|_]; [congruence|].
  destruct (any_in UNITS s); reflexivity.
Qed.





(** ** HTML Option Reader and Merger *)

Lemma option_union_None_r (mx : option pyval) :
  mx ∪ None = mx.
Proof. destruct mx; reflexivity. Qed.

Lemma option_union_None_l (mx : option pyval) :
  None ∪ mx = mx.
Proof. destruct mx; reflexivity. Qed.

Lemma default_margin_lookup_ne (side key : string) (options : gmap string pyval) :
  side <> key -> default_margin side options !! key = options !! key.
Proof.
  intros Hne. unfold default_margin.
  destruct (truthy (py_get options side)); [reflexivity|].
  apply lookup_insert_ne, Hne.
Qed.

(** The captured settings do not depend on the marker. *)
Lemma thermal_settings_of_delete_marker (options : gmap string pyval) :
  thermal_settings_of (delete "_is_thermal" options) = thermal_settings_of options.
Proof.
  unfold thermal_settings_of, py_get, py_get_default.
  rewrite !lookup_delete_ne by discriminate. reflexivity.
Qed.

(** A key that names a margin or a page setting is none of the keys the
    merge step writes by itself. *)
Lemma margin_or_page_key_not (key other : string) :
  names_margin_or_page key = true ->
  names_margin_or_page other = false ->
  other <> key.
Proof. intros Hkey Hother ->. congruence. Qed.

Lemma forced_options_lookup (key : string) :
  names_margin_or_page key = true -> FORCED_OPTIONS !! key = None.
Proof.
  intros Hkey. unfold FORCED_OPTIONS.
  rewrite !lookup_insert_ne by (apply (margin_or_page_key_not _ _ Hkey); reflexivity).
  apply lookup_empty.
Qed.

(** In thermal mode an HTML directive on such a key is dropped. *)
Lemma thermal_filter_drops (html_options : gmap string pyval) (key : string) :
  names_margin_or_page key = true ->
  filter (fun kv : string * pyval => names_margin_or_page kv.1 = false)
    html_options !! key = None.
Proof.
  intros Hkey. apply map_lookup_filter_None. right.
  intros v _. simpl. congruence.
Qed.

Lemma thermal_filter_keeps (html_options : gmap string pyval) (key : string) :
  names_margin_or_page key = false ->
  filter (fun kv : string * pyval => names_margin_or_page kv.1 = false)
    html_options !! key = html_options !! key.
Proof.
  intros Hkey. destruct (html_options !! key) as [v|] eqn:Hv.
  - apply map_lookup_filter_Some. split; [exact Hv | exact Hkey].
  - apply map_lookup_filter_None. left. exact Hv.
Qed.

Lemma thermal_settings_lookup_other (options : gmap string pyval) (key : string) :
  key ∉ ["margin-top"; "margin-bottom"; "margin-left"; "margin-right";
         "page-width"; "page-height"; "dpi"; "zoom"] ->
  thermal_settings_of options !! key = None.
Proof.
  intros Hkey. unfold thermal_settings_of.
  rewrite !lookup_insert_ne by (intros <-; apply Hkey; set_solver).
  apply lookup_empty.
Qed.

(** The session cookie is the last write of the merge step. *)
Lemma cookie_lookup_ne `{Frappe} (options : gmap string pyval) (key : string) :
  key <> "cookie" ->
  match session_sid with
  | Some sid =>
      if String.eqb sid "" then options
      else <["cookie" := VCookies [("sid", sid)]]> options
  | None => options
  end !! key = options !! key.
Proof.
  intros Hne. destruct session_sid as [sid|]; [|reflexivity].
  destruct (String.eqb sid ""); [reflexivity|].
  apply lookup_insert_ne. congruence.
Qed.

(** What the merge step leaves at a key it never writes itself and that
    the thermal restore does not cover: the HTML directive when it is
    applied, the caller's option otherwise. *)
Lemma thermal_merge_lookup `{Frappe} (html : string) (options : gmap string pyval)
    (key : string) :
  truthy (py_get_default options "_is_thermal" (VBool false)) = true ->
  key <> "cookie" ->
  FORCED_OPTIONS !! key = None ->
  (prepare_options html (Some options)).2 !! key
  = thermal_settings_of options !! key
    ∪ (filter (fun kv : string * pyval => names_margin_or_page kv.1 = false)
         (read_options_from_html html).2 !! key
       ∪ delete "_is_thermal" options !! key).
Proof.
  intros Hthermal Hcookie Hforced. unfold prepare_options. simpl default.
  rewrite Hthermal.
  destruct (read_options_from_html html) as [html' html_options]. simpl.
  rewrite cookie_lookup_ne by exact Hcookie.
  unfold py_update. rewrite lookup_union, thermal_settings_of_delete_marker.
  f_equal. case_bool_decide as Hempty.
  - subst html_options. rewrite map_filter_empty, lookup_empty.
    rewrite option_union_None_l, lookup_union, Hforced.
    apply option_union_None_l.
  - rewrite !lookup_union, Hforced, option_union_None_l. reflexivity.
Qed.

(** C1: when the options carry the thermal marker, every key that names a
    margin or a page setting comes out of the merge step with the value
    captured before the merge (the caller's option, or the captured default)
    whatever the HTML says for it, and so do all captured settings: the
    margins, page-width, page-height, dpi and zoom. *)
Theorem thermal_settings_protected `{Frappe} (html : string)
    (options : gmap string pyval) (marker : pyval) :
  options !! "_is_thermal" = Some marker ->
  truthy marker = true ->
  let merged := (prepare_options html (Some options)).2 in
  (forall key, names_margin_or_page key = true ->
     merged !! key = py_update options (thermal_settings_of options) !! key)
  /\ (forall key value, thermal_settings_of options !! key = Some value ->
        merged !! key = Some value).
Proof.
  intros Hmarker Htruthy merged. subst merged.
  assert (Hthermal : truthy (py_get_default options "_is_thermal" (VBool false)) = true).
  { unfold py_get_default. rewrite Hmarker. exact Htruthy. }
  split.
  - intros key Hkey.
    rewrite thermal_merge_lookup; [|exact Hthermal| |apply forced_options_lookup, Hkey].
    + rewrite thermal_filter_drops, option_union_None_l by exact Hkey.
      rewrite lookup_delete_ne
        by (apply (margin_or_page_key_not _ _ Hkey); reflexivity).
      unfold py_update. rewrite lookup_union. reflexivity.
    + apply not_eq_sym, (margin_or_page_key_not _ _ Hkey). reflexivity.
  - intros key value Hvalue.
    assert (Hin : key ∈ ["margin-top"; "margin-bottom"; "margin-left";
                         "margin-right"; "page-width"; "page-height"; "dpi"; "zoom"]).
    { destruct (decide (key ∈ ["margin-top"; "margin-bottom"; "margin-left";
                               "margin-right"; "page-width"; "page-height";
                               "dpi"; "zoom"])) as [Hin|Hout]; [exact Hin|].
      rewrite thermal_settings_lookup_other in Hvalue by exact Hout. discriminate. }
    rewrite thermal_merge_lookup; [|exact Hthermal| |].
    + rewrite Hvalue.
      match goal with |- Some _ ∪ ?rest = _ => destruct rest end; reflexivity.
    + intros ->. set_solver.
    + unfold FORCED_OPTIONS.
      rewrite !lookup_insert_ne by (intros <-; set_solver).
      apply lookup_empty.
Qed.

Lemma thermal_settings_protected_witness :
  (prepare_options (H := example_frappe) "<html>" (Some example_thermal_options)).2
    !! "margin-top" = Some (VStr "0mm")
  /\ (prepare_options (H := example_frappe) "<html>" (Some example_thermal_options)).2
       !! "page-width" = Some (VStr "72mm").
Proof.
  assert (Hmarker : example_thermal_options !! "_is_thermal" = Some (VBool true))
    by (vm_compute; reflexivity).
  destruct (thermal_settings_protected (H := example_frappe) "<html>"
              example_thermal_options (VBool true) Hmarker eq_refl)
    as [Hkeys _].
  split.
  - rewrite (Hkeys "margin-top") by reflexivity. vm_compute. reflexivity.
  - rewrite (Hkeys "page-width") by reflexivity. vm_compute. reflexivity.
Defined.

(** The marker the engine sees is the one an HTML directive of that very
    name would bring; the caller's marker is gone. *)
Lemma engine_call_marker `{Frappe} (html : string)
    (options : option (gmap string pyval)) :
  (engine_call html options).2 !! "_is_thermal"
  = (read_options_from_html (scrub_urls html)).2 !! "_is_thermal".
Proof.
  unfold engine_call.
  assert (Hprep : (prepare_options (scrub_urls html) options).2 !! "_is_thermal"
                  = (read_options_from_html (scrub_urls html)).2 !! "_is_thermal").
  { unfold prepare_options.
    set (opts := default ∅ options).
    destruct (read_options_from_html (scrub_urls html)) as [html' html_options].
    simpl. rewrite cookie_lookup_ne by discriminate.
    assert (Hforced : py_update (delete "_is_thermal" opts) FORCED_OPTIONS
                        !! "_is_thermal" = None).
    { unfold py_update. rewrite lookup_union, lookup_delete_eq. reflexivity. }
    destruct (truthy (py_get_default opts "_is_thermal" (VBool false))).
    - unfold py_update at 1. rewrite lookup_union.
      rewrite thermal_settings_lookup_other, option_union_None_l
        by key_not_listed.
      case_bool_decide as Hempty.
      + subst html_options. rewrite Hforced, lookup_empty. reflexivity.
      + unfold py_update at 1. rewrite lookup_union, Hforced.
        rewrite thermal_filter_keeps by reflexivity.
        apply option_union_None_r.
    - assert (Hmargins :
        default_margin "margin-bottom"
          (default_margin "margin-top"
            (default_margin "margin-left"
              (default_margin "margin-right"
                (py_update (delete "_is_thermal" opts) FORCED_OPTIONS))))
          !! "_is_thermal" = None).
      { rewrite !default_margin_lookup_ne by discriminate. exact Hforced. }
      case_bool_decide as Hempty.
      + subst html_options. rewrite Hmargins, lookup_empty. reflexivity.
      + unfold py_update at 1. rewrite lookup_union, Hmargins.
        apply option_union_None_r. }
  destruct (prepare_options (scrub_urls html) options) as [html' prepared].
  simpl in Hprep.
  assert (Hsecure : py_update prepared
            (<["disable-javascript" := VStr ""]>
            (<["disable-local-file-access" := VStr ""]> ∅)) !! "_is_thermal"
          = prepared !! "_is_thermal").
  { unfold py_update. rewrite lookup_union.
    rewrite !lookup_insert_ne by discriminate.
    rewrite lookup_empty. apply option_union_None_l. }
  simpl. destruct (version_gt get_wkhtmltopdf_version [0; 12; 3]%nat).
  - unfold py_update at 1. rewrite lookup_union, lookup_singleton_ne by discriminate.
    rewrite option_union_None_l, Hsecure. exact Hprep.
  - rewrite Hsecure. exact Hprep.
Qed.

(** C4: whatever options the caller passes, marker or not, the options
    with which [get_pdf] calls the engine have no [_is_thermal] entry, the
    HTML reader emitting none of that name. *)
Theorem thermal_marker_never_reaches_engine `{Frappe} (html : string)
    (options : option (gmap string pyval)) :
  (forall body, (read_options_from_html body).2 !! "_is_thermal" = None) ->
  (prepare_options html options).2 !! "_is_thermal" = None
  /\ (engine_call html options).2 !! "_is_thermal" = None.
Proof.
  intros Hreader. split.
  - unfold prepare_options.
    set (opts := default ∅ options).
    specialize (Hreader html).
    destruct (read_options_from_html html) as [html' html_options].
    simpl in *. rewrite cookie_lookup_ne by discriminate.
    assert (Hforced : py_update (delete "_is_thermal" opts) FORCED_OPTIONS
                        !! "_is_thermal" = None).
    { unfold py_update. rewrite lookup_union, lookup_delete_eq. reflexivity. }
    assert (Hmerge : forall base extra : gmap string pyval,
              base !! "_is_thermal" = None -> extra !! "_is_thermal" = None ->
              py_update base extra !! "_is_thermal" = None).
    { intros base extra Hbase Hextra. unfold py_update.
      rewrite lookup_union, Hbase, Hextra. reflexivity. }
    destruct (truthy (py_get_default opts "_is_thermal" (VBool false))).
    + apply Hmerge;
        [|apply thermal_settings_lookup_other; key_not_listed].
      case_bool_decide; [exact Hforced|].
      apply Hmerge; [exact Hforced|].
      rewrite thermal_filter_keeps by reflexivity. exact Hreader.
    + case_bool_decide; [|apply Hmerge; [|exact Hreader]];
        rewrite !default_margin_lookup_ne by discriminate; exact Hforced.
  - rewrite engine_call_marker. apply Hreader.
Qed.

Lemma thermal_marker_never_reaches_engine_witness :
  example_thermal_options !! "_is_thermal" = Some (VBool true)
  /\ (engine_call (H := example_frappe) "<html>" (Some example_thermal_options)).2
       !! "_is_thermal" = None.
Proof.
  split.
  - vm_compute. reflexivity.
  - apply (thermal_marker_never_reaches_engine (H := example_frappe)).
    intros body. vm_compute. reflexivity.
Defined.

(** ** PDF Renderer *)

Lemma fold_left_add_page {page : Type} (pages : list page) (w : PdfWriter page) :
  fold_left add_page pages w
  = {| writer_pages := writer_pages w ++ pages;
       writer_password := writer_password w |}.
Proof.
  revert w. induction pages as [|p pages IH]; intros w; simpl.
  - rewrite app_nil_r. destruct w; reflexivity.
  - rewrite IH. simpl. rewrite <- app_assoc. reflexivity.
Qed.

Lemma add_pages_bound {page : Type} (pages : list page) (w : PdfWriter page) :
  add_pages (Some pages) w
  = ret {| writer_pages := writer_pages w ++ pages;
           writer_password := writer_password w |}.
Proof. unfold add_pages. simpl. rewrite fold_left_add_page. reflexivity. Qed.

Lemma add_pages_unbound {page : Type} (w : PdfWriter page) :
  add_pages None w = raise (UnboundLocalError "reader").
Proof. reflexivity. Qed.

(** C2, what the code does: when the engine raises a recognized content
    error, whatever it had produced, [filedata] still holds its initial
    empty value and [get_pdf] fails with the broken-image-links error,
    with or without an accumulator. *)
Theorem content_error_discards_produced_pages `{PdfKit, PyPDF2, Frappe}
    (html : string) (options : option (gmap string pyval))
    (output : option (PdfWriter pdf_page)) (msg : string)
    (produced : list Byte.byte) :
  from_string (engine_call html options).1
    (dict_or_empty (engine_call html options).2) = Raised (OSError msg) produced ->
  is_content_error (OSError msg) = true ->
  get_pdf html options output
  = raise (ValidationError
             (translate "PDF generation failed because of broken image links")).
Proof.
  intros Hengine Hcontent. unfold get_pdf.
  destruct (engine_call html options) as [html' options']. simpl in Hengine.
  unfold render. rewrite Hengine, Hcontent. reflexivity.
Qed.

Lemma content_error_discards_produced_pages_witness :
  get_pdf (H := example_failing_pdfkit) (H0 := example_pypdf2) (H1 := example_frappe)
    "<html>" None None
  = raise (ValidationError "PDF generation failed because of broken image links").
Proof.
  apply (content_error_discards_produced_pages
           (H := example_failing_pdfkit) (H0 := example_pypdf2) (H1 := example_frappe)
           "<html>" None None
           "wkhtmltopdf reported an error: ContentNotFoundError"
           [Byte.x25; Byte.x50]).
  - reflexivity.
  - vm_compute. reflexivity.
Defined.

(** [get_pdf] returns only when the engine returned and the bytes parsed:
    the handler of line 236 never leads to a result. *)
Theorem get_pdf_returns_only_after_success `{PdfKit, PyPDF2, Frappe}
    (html : string) (options : option (gmap string pyval))
    (output : option (PdfWriter pdf_page)) (out : pdf_output pdf_page) :
  get_pdf html options output = ret out ->
  exists filedata pages,
    from_string (engine_call html options).1
      (dict_or_empty (engine_call html options).2) = Returned filedata
    /\ PdfReader filedata = ret pages.
Proof.
  unfold get_pdf.
  destruct (engine_call html options) as [html' options']. simpl.
  unfold render.
  destruct (from_string html' (dict_or_empty options')) as [filedata|e produced].
  - destruct (PdfReader filedata) as [e|pages] eqn:Hparse.
    + intros Hout. exfalso.
      destruct e as [m|m|m|v|m]; simpl in Hout; try discriminate.
      destruct (is_content_error (OSError m)); [|discriminate].
      destruct filedata as [|b filedata]; [discriminate|].
      destruct output as [w|]; simpl in Hout; discriminate.
    + intros _. exists filedata, pages. split; [reflexivity | exact Hparse].
  - intros Hout. exfalso.
    destruct e as [m|m|m|v|m]; simpl in Hout; try discriminate.
    destruct (is_content_error (OSError m)); discriminate.
Qed.

Lemma get_pdf_returns_only_after_success_witness :
  exists filedata pages,
    from_string (PdfKit := example_pdfkit)
      (engine_call (H := example_frappe) "<html>" None).1
      (dict_or_empty (engine_call (H := example_frappe) "<html>" None).2)
    = Returned filedata
    /\ PdfReader (PyPDF2 := example_pypdf2) filedata = ret pages.
Proof.
  apply (get_pdf_returns_only_after_success
           (H := example_pdfkit) (H0 := example_pypdf2) (H1 := example_frappe)
           "<html>" None None
           (FileData (get_file_data_from_writer (PyPDF2 := example_pypdf2)
                        {| writer_pages := [0; 1; 2]%nat; writer_password := None |}))).
  vm_compute. reflexivity.
Defined.

(** C10: after a successful render a given accumulator gets the rendered
    pages appended and is itself the result, its encryption state left as
    it was whatever the options say; without an accumulator the result is
    the serialization of a fresh writer holding the pages, encrypted
    exactly when the options have a [password]. *)
Theorem accumulator_returned_unencrypted `{PdfKit, PyPDF2, Frappe}
    (html : string) (options : option (gmap string pyval))
    (output : PdfWriter pdf_page) (filedata : list Byte.byte)
    (pages : list pdf_page) :
  from_string (engine_call html options).1
    (dict_or_empty (engine_call html options).2) = Returned filedata ->
  PdfReader filedata = ret pages ->
  get_pdf html options (Some output)
  = ret (Accumulator {| writer_pages := writer_pages output ++ pages;
                        writer_password := writer_password output |})
  /\ get_pdf html options None
     = ret (FileData (get_file_data_from_writer
                        {| writer_pages := pages;
                           writer_password :=
                             (engine_call html options).2 !! "password" |})).
Proof.
  intros Hengine Hparse. unfold get_pdf.
  destruct (engine_call html options) as [html' options']. simpl in *.
  unfold render. rewrite Hengine, Hparse. simpl bind.
  split.
  - rewrite fold_left_add_page. reflexivity.
  - rewrite fold_left_add_page. simpl.
    destruct (options' !! "password"); reflexivity.
Qed.

Lemma accumulator_returned_unencrypted_witness :
  get_pdf (H := example_pdfkit) (H0 := example_pypdf2) (H1 := example_frappe)
    "<html>" (Some {[ "password" := VStr "secret" ]})
    (Some {| writer_pages := [7%nat]; writer_password := None |})
  = ret (Accumulator {| writer_pages := [7; 0; 1; 2]%nat; writer_password := None |}).
Proof.
  apply (accumulator_returned_unencrypted
           (H := example_pdfkit) (H0 := example_pypdf2) (H1 := example_frappe)
           "<html>" (Some {[ "password" := VStr "secret" ]})
           {| writer_pages := [7%nat]; writer_password := None |}
           [Byte.x25; Byte.x50; Byte.x44] [0; 1; 2]%nat).
  - reflexivity.
  - reflexivity.
Defined.

(** ** Whitespace Cropper *)

Lemma crop_page_inspection_raises `{Fitz} (page : fitz_page) (e : exn) :
  get_text_blocks page = raise e -> crop_page page = raise e.
Proof. intros Hraise. unfold crop_page. rewrite Hraise. reflexivity. Qed.

(** One page whose inspection raises makes the whole loop raise, wherever
    the page stands in the document. *)
Lemma for_each_crop_page_raises `{Fitz} (pdf_doc : list fitz_page)
    (page : fitz_page) (e : exn) :
  page ∈ pdf_doc ->
  get_text_blocks page = raise e ->
  exists e', for_each crop_page pdf_doc = raise e'.
Proof.
  intros Hin Hraise.
  induction pdf_doc as [|first rest IH]; [inversion Hin|].
  simpl. destruct (crop_page first) as [e1|first'] eqn:Hfirst.
  - exists e1. reflexivity.
  - apply elem_of_cons in Hin as [->|Hin].
    + rewrite (crop_page_inspection_raises _ _ Hraise) in Hfirst. discriminate.
    + destruct (IH Hin) as [e' He']. exists e'. rewrite He'. reflexivity.
Qed.

(** Both handlers return the bytes they were given. *)
Lemma crop_body_raises_returns_input `{Fitz} (pdf_bytes : list Byte.byte) (e : exn) :
  crop_body pdf_bytes = raise e ->
  (crop_pdf_whitespace pdf_bytes).1 = pdf_bytes.
Proof.
  intros Hraise. unfold crop_pdf_whitespace. rewrite Hraise.
  destruct e; reflexivity.
Qed.

(** C3: when the inspection library is missing, when it cannot open the
    bytes, when the inspection of any page raises, or when anything else in
    the [try] block raises, the bytes returned are the input bytes; the
    function has no raising outcome. *)
Theorem crop_failure_returns_input `{Fitz} (pdf_bytes : list Byte.byte) :
  (exists e, import_fitz = raise e)
  \/ (exists e, fitz_open pdf_bytes = raise e)
  \/ (exists pdf_doc page e,
        fitz_open pdf_bytes = ret pdf_doc
        /\ page ∈ pdf_doc /\ get_text_blocks page = raise e)
  \/ (exists e, crop_body pdf_bytes = raise e) ->
  (crop_pdf_whitespace pdf_bytes).1 = pdf_bytes.
Proof.
  intros Hraises.
  assert (Hbody : exists e, crop_body pdf_bytes = raise e).
  { unfold crop_body.
    destruct Hraises as [[e He]|[[e He]|[(pdf_doc & page & e & Hopen & Hin & He)|Hbody]]].
    - exists e. rewrite He. reflexivity.
    - destruct import_fitz as [e0|[]]; [exists e0; reflexivity|].
      exists e. simpl. rewrite He. reflexivity.
    - destruct import_fitz as [e0|[]]; [exists e0; reflexivity|].
      simpl. rewrite Hopen. simpl.
      destruct (for_each_crop_page_raises pdf_doc page e Hin He) as [e' He'].
      exists e'. rewrite He'. reflexivity.
    - exact Hbody. }
  destruct Hbody as [e He].
  exact (crop_body_raises_returns_input pdf_bytes e He).
Qed.

Lemma crop_failure_returns_input_witness :
  (crop_pdf_whitespace (H := example_fitz false) [Byte.x25; Byte.x50]).1
  = [Byte.x25; Byte.x50].
Proof.
  apply (crop_failure_returns_input (H := example_fitz false)).
  left. exists (ImportError "No module named 'fitz'"). reflexivity.
Defined.

(** The test of lines 174-182 in one inequality. *)
Lemma crop_decision_spec `{Fitz} (rect : Rect) (max_y : Q) :
  crop_decision rect max_y
  = if Qlt_le_dec 0 max_y then
      if Qlt_le_dec 35 (rect_height rect - max_y) then
        Some {| x0 := x0 rect; y0 := y0 rect; x1 := x1 rect; y1 := (max_y + 15)%Q |}
      else None
    else None.
Proof.
  unfold crop_decision.
  destruct (Qlt_le_dec 0 max_y); [|reflexivity].
  destruct (Qlt_le_dec 20 (rect_height rect - (max_y + 15)));
    destruct (Qlt_le_dec 35 (rect_height rect - max_y)); try reflexivity; lra.
Qed.

(** C7, as the code has it: 15 points are added below the lowest content
    before the 20-point test, so a page with content is cropped exactly
    when its content ends more than 35 points short of the page height;
    content within 35 points (so also within 20), no content blocks or no
    content below the origin leave the page as it is. *)
Theorem crop_threshold_with_buffer `{Fitz} (page : fitz_page) (blocks : list Block) :
  get_text_blocks page = ret blocks ->
  let rect := page_rect page in
  let max_y := lowest_point blocks in
  (blocks <> [] -> (0 < max_y)%Q -> (35 < rect_height rect - max_y)%Q ->
   crop_page page
   = set_cropbox page
       {| x0 := x0 rect; y0 := y0 rect; x1 := x1 rect; y1 := (max_y + 15)%Q |})
  /\ ((rect_height rect - max_y <= 35)%Q -> crop_page page = ret page)
  /\ ((rect_height rect - max_y <= 20)%Q -> crop_page page = ret page)
  /\ (blocks = [] \/ (max_y <= 0)%Q -> crop_page page = ret page).
Proof.
  intros Hblocks rect max_y. subst rect max_y.
  unfold crop_page. rewrite Hblocks. simpl bind.
  rewrite crop_decision_spec.
  repeat split.
  - intros Hne Hpos Hgap. destruct blocks as [|b blocks]; [congruence|].
    destruct (Qlt_le_dec 0 (lowest_point (b :: blocks))); [|lra].
    destruct (Qlt_le_dec 35 _); [reflexivity|lra].
  - intros Hgap. destruct blocks as [|b blocks]; [reflexivity|].
    destruct (Qlt_le_dec 0 (lowest_point (b :: blocks))); [|reflexivity].
    destruct (Qlt_le_dec 35 _); [lra|reflexivity].
  - intros Hgap. destruct blocks as [|b blocks]; [reflexivity|].
    destruct (Qlt_le_dec 0 (lowest_point (b :: blocks))); [|reflexivity].
    destruct (Qlt_le_dec 35 _); [lra|reflexivity].
  - intros [->|Hlow]; [reflexivity|].
    destruct blocks as [|b blocks]; [reflexivity|].
    destruct (Qlt_le_dec 0 (lowest_point (b :: blocks))); [lra|reflexivity].
Qed.

Lemma crop_threshold_with_buffer_witness :
  crop_page (H := example_fitz true) (example_page 40)
  = ret ({| x0 := 0; y0 := 0; x1 := 200; y1 := 40 + 15 |}, snd (example_page 40)).
Proof.
  destruct (crop_threshold_with_buffer (H := example_fitz true)
              (example_page 40) (snd (example_page 40)) eq_refl) as [Hcrop _].
  rewrite Hcrop.
  - reflexivity.
  - discriminate.
  - vm_compute. reflexivity.
  - vm_compute. reflexivity.
Defined.

(** C7 as the specification words it fails: on a page 100 points high whose
    content ends at 70, 30 points short of the bottom, no crop box is set. *)
Lemma crop_threshold_counterexample :
  (20 < rect_height (Fitz := example_fitz true) (fst (example_page 70))
        - lowest_point (snd (example_page 70)))%Q
  /\ crop_decision (H := example_fitz true) (fst (example_page 70))
       (lowest_point (snd (example_page 70))) = None
  /\ crop_page (H := example_fitz true) (example_page 70) = ret (example_page 70).
Proof.
  split; [|split].
  - vm_compute. reflexivity.
  - vm_compute. reflexivity.
  - vm_compute. reflexivity.
Qed.

(** * Further properties *)

(** ** Height Estimator *)

Lemma items_count_length (doc : option Document) :
  items_count doc = Z.of_nat (length (doc_items doc)).
Proof. destruct doc; reflexivity. Qed.

Lemma payments_count_length (doc : option Document) :
  payments_count doc = Z.of_nat (length (doc_payments doc)).
Proof. destruct doc; reflexivity. Qed.

(** No more items carry a discount than there are items. *)
Lemma items_with_discount_bounds (doc : option Document) :
  (0 <= items_with_discount doc <= items_count doc)%Z.
Proof.
  rewrite items_with_discount_length, items_count_length.
  pose proof (List.filter_length_le has_discount (doc_items doc)). lia.
Qed.

(** The minimum height is the height of the empty documents and of no
    other: one item or one payment already lifts the estimate above 60. *)
Theorem min_height_only_for_empty_document (doc : option Document) :
  calculate_receipt_height doc = min_height RECEIPT_HEIGHT_CONFIG
  <-> doc_items doc = [] /\ doc_payments doc = [].
Proof.
  rewrite calculate_receipt_height_formula. simpl min_height.
  pose proof (items_with_discount_bounds doc) as Hdiscount.
  rewrite items_count_length in *. rewrite payments_count_length.
  split.
  - intros Hmin.
    destruct (doc_items doc) as [|item its], (doc_payments doc) as [|pay pays];
      simpl length in *; [split; reflexivity| | |]; exfalso;
      destruct (0 <? _)%Z eqn:Hpay; try (apply Z.ltb_ge in Hpay); lia.
  - intros [Hitems Hpayments]. rewrite Hitems, Hpayments in *. simpl in *.
    assert (items_with_discount doc = 0%Z) as -> by lia. reflexivity.
Qed.

(** The estimate never decreases when the number of items, of discounted
    items and of payments grow, each on its own or together; the payment
    section appears with the first payment. *)
Theorem height_monotone_in_all_counts (doc1 doc2 : option Document) :
  (items_count doc1 <= items_count doc2)%Z ->
  (items_with_discount doc1 <= items_with_discount doc2)%Z ->
  (payments_count doc1 <= payments_count doc2)%Z ->
  (calculate_receipt_height doc1 <= calculate_receipt_height doc2)%Z.
Proof.
  intros Hitems Hdiscount Hpayments.
  rewrite !calculate_receipt_height_formula.
  destruct (0 <? payments_count doc1)%Z eqn:Hp1;
    destruct (0 <? payments_count doc2)%Z eqn:Hp2;
    try apply Z.ltb_lt in Hp1; try apply Z.ltb_ge in Hp1;
    try apply Z.ltb_lt in Hp2; try apply Z.ltb_ge in Hp2; lia.
Qed.

Lemma height_monotone_in_all_counts_witness :
  (calculate_receipt_height (Some {| items := [∅]; payments := [] |})
   <= calculate_receipt_height (Some {| items := [∅; ∅]; payments := [∅] |}))%Z.
Proof.
  apply height_monotone_in_all_counts; vm_compute; discriminate.
Defined.

(** From 56 items on the estimate is the maximum, 500, whatever else the
    document holds: longer receipts get no longer page. *)
Theorem height_saturates_at_56_items (doc : option Document) :
  (56 <= items_count doc)%Z ->
  calculate_receipt_height doc = max_height RECEIPT_HEIGHT_CONFIG.
Proof.
  intros Hitems. rewrite calculate_receipt_height_formula. simpl max_height.
  pose proof (items_with_discount_bounds doc) as Hdiscount.
  pose proof (payments_count_length doc) as Hpayments.
  destruct (0 <? payments_count doc)%Z; lia.
Qed.

Lemma height_saturates_at_56_items_witness :
  calculate_receipt_height (Some {| items := repeat ∅ 56; payments := [] |}) = 500%Z.
Proof.
  apply (height_saturates_at_56_items (Some {| items := repeat ∅ 56; payments := [] |})).
  vm_compute. discriminate.
Defined.

(** ** Page Option Builder *)

Lemma prefix_refl (s : string) : String.prefix s s = true.
Proof.
  induction s as [|c s IH]; simpl; [reflexivity|].
  destruct (ascii_dec c c); [exact IH | congruence].
Qed.

(** A text occurs in whatever ends with it. *)
Lemma py_in_app_r (u s : string) : py_in u (s ++ u) = true.
Proof.
  induction s as [|c s IH].
  - change (py_in u u = true). destruct u as [|a u].
    + reflexivity.
    + unfold py_in. rewrite prefix_refl. reflexivity.
  - change (String.prefix u (String c (s ++ u)) || py_in u (s ++ u) = true).
    rewrite IH. apply orb_true_r.
Qed.

Lemma any_in_units_mm (s : string) : any_in UNITS (s ++ "mm") = true.
Proof. unfold any_in, UNITS. simpl existsb. rewrite py_in_app_r. reflexivity. Qed.

Lemma ensure_unit_has_unit (s : string) :
  s <> "" -> any_in UNITS (ensure_unit s) = true.
Proof.
  intros Hs. rewrite ensure_unit_spec by exact Hs.
  destruct (any_in UNITS s) eqn:Hunit; [exact Hunit | apply any_in_units_mm].
Qed.

Lemma str_or_not_empty (v : option string) (dflt : string) :
  dflt <> "" -> str_or v dflt <> "".
Proof.
  intros Hd. destruct v as [s|]; simpl; [|exact Hd].
  destruct (String.eqb_spec s ""); congruence.
Qed.

Lemma append_not_empty (s u : string) : u <> "" -> (s ++ u)%string <> "".
Proof. intros Hu. destruct s; simpl; [exact Hu | discriminate]. Qed.

(** Normalizing twice is normalizing once. *)
Theorem ensure_unit_idempotent (s : string) :
  ensure_unit (ensure_unit s) = ensure_unit s.
Proof.
  destruct (String.eqb_spec s "") as [->|Hs]; [reflexivity|].
  pose proof (ensure_unit_has_unit s Hs) as Hunit.
  unfold ensure_unit at 1. rewrite Hunit, andb_false_r. reflexivity.
Qed.

(** For page size "Custom" the options are the ten thermal entries and no
    [page-size]: zero margins on the four sides, 203 dpi, zoom 1, no PDF
    compression and the marker set, whatever else the format and the
    document hold. *)
Theorem custom_format_options (silent_print_format : SilentPrintFormat)
    (doc : option Document) :
  page_size silent_print_format = Some "Custom" ->
  let options := get_pdf_options silent_print_format doc in
  size options = 10%nat
  /\ options !! "page-size" = None
  /\ options !! "_is_thermal" = Some (VBool true)
  /\ (forall side, side ∈ ["margin-top"; "margin-bottom"; "margin-left"; "margin-right"] ->
        options !! side = Some (VStr "0mm"))
  /\ options !! "dpi" = Some (VStr "203")
  /\ options !! "zoom" = Some (VStr "1")
  /\ options !! "no-pdf-compression" = Some (VStr "")
  /\ is_Some (options !! "page-width")
  /\ is_Some (options !! "page-height").
Proof.
  intros Hsize options. subst options. unfold get_pdf_options.
  rewrite bool_decide_eq_true_2 by exact Hsize.
  split.
  { repeat (rewrite map_size_insert_None;
      [|rewrite ?lookup_insert_ne by discriminate; apply lookup_empty]).
    rewrite map_size_empty. reflexivity. }
  split; [rewrite !lookup_insert_ne by discriminate; apply lookup_empty|].
  split; [rewrite !lookup_insert_ne by discriminate; apply lookup_insert_eq|].
  split.
  { intros side Hside.
    repeat (apply elem_of_cons in Hside as [->|Hside];
      [rewrite ?lookup_insert_ne by discriminate; apply lookup_insert_eq|]).
    inversion Hside. }
  repeat split;
    try (rewrite ?lookup_insert_ne by discriminate; apply lookup_insert_eq);
    eexists; rewrite ?lookup_insert_ne by discriminate; apply lookup_insert_eq.
Qed.

Lemma custom_format_options_witness :
  get_pdf_options example_format None !! "_is_thermal" = Some (VBool true)
  /\ get_pdf_options example_format None !! "page-size" = None.
Proof.
  destruct (custom_format_options example_format None eq_refl)
    as (_ & Hsize & Hmarker & _).
  split; [exact Hmarker | exact Hsize].
Defined.

(** For page size "Custom" the width and the height handed to the engine
    are texts in which a unit occurs: the configured text, a default, or
    the computed height, each with "mm" appended where needed. *)
Theorem custom_sizes_carry_unit (silent_print_format : SilentPrintFormat)
    (doc : option Document) :
  page_size silent_print_format = Some "Custom" ->
  exists width height,
    get_pdf_options silent_print_format doc !! "page-width" = Some (VStr width)
    /\ get_pdf_options silent_print_format doc !! "page-height" = Some (VStr height)
    /\ any_in UNITS width = true
    /\ any_in UNITS height = true.
Proof.
  intros Hsize. unfold get_pdf_options.
  rewrite bool_decide_eq_true_2 by exact Hsize.
  eexists _, _. split; [apply lookup_insert_eq|].
  split; [rewrite lookup_insert_ne by discriminate; apply lookup_insert_eq|].
  split.
  - apply ensure_unit_has_unit, str_or_not_empty. discriminate.
  - apply ensure_unit_has_unit.
    destruct (auto_height silent_print_format), doc;
      try (apply str_or_not_empty; discriminate).
    apply append_not_empty. discriminate.
Qed.

Lemma custom_sizes_carry_unit_witness :
  exists width height,
    get_pdf_options example_points_format None !! "page-width" = Some (VStr width)
    /\ get_pdf_options example_points_format None !! "page-height" = Some (VStr height)
    /\ any_in UNITS width = true
    /\ any_in UNITS height = true.
Proof. apply (custom_sizes_carry_unit example_points_format None). reflexivity. Defined.

(** With [auto_height] set and a document at hand the page height is the
    estimate followed by "mm"; the configured custom height is not read. *)
Theorem auto_height_overrides_custom_height (silent_print_format : SilentPrintFormat)
    (d : Document) :
  page_size silent_print_format = Some "Custom" ->
  auto_height silent_print_format = true ->
  get_pdf_options silent_print_format (Some d) !! "page-height"
  = Some (VStr (format_int (calculate_receipt_height (Some d)) ++ "mm")).
Proof.
  intros Hsize Hauto. unfold get_pdf_options.
  rewrite bool_decide_eq_true_2 by exact Hsize.
  rewrite lookup_insert_ne by discriminate. rewrite lookup_insert_eq, Hauto.
  rewrite ensure_unit_spec by (apply append_not_empty; discriminate).
  rewrite any_in_units_mm. reflexivity.
Qed.

Lemma auto_height_overrides_custom_height_witness :
  get_pdf_options
    {| page_size := Some "Custom"; custom_width := None; custom_height := Some "999cm";
       auto_height := true; crop_whitespace := false; default_print_type := None |}
    (Some {| items := []; payments := [] |}) !! "page-height"
  = Some (VStr "60mm").
Proof.
  apply (auto_height_overrides_custom_height
    {| page_size := Some "Custom"; custom_width := None; custom_height := Some "999cm";
       auto_height := true; crop_whitespace := false; default_print_type := None |}
    {| items := []; payments := [] |}); reflexivity.
Defined.

(** ** HTML Option Reader and Merger *)

(** The merge step entry by entry, in thermal mode: the captured settings
    first, then the HTML directives that pass the filter, then the forced
    options, then what the caller gave. *)
Lemma thermal_merge_layers `{Frappe} (html : string)
    (options : option (gmap string pyval)) (key : string) :
  truthy (py_get_default (default ∅ options) "_is_thermal" (VBool false)) = true ->
  key <> "cookie" ->
  (prepare_options html options).2 !! key
  = thermal_settings_of (default ∅ options) !! key
    ∪ (filter (fun kv : string * pyval => names_margin_or_page kv.1 = false)
         (read_options_from_html html).2 !! key
       ∪ (FORCED_OPTIONS !! key ∪ delete "_is_thermal" (default ∅ options) !! key)).
Proof.
  intros Hthermal Hcookie. unfold prepare_options.
  set (opts := default ∅ options) in *. rewrite Hthermal.
  destruct (read_options_from_html html) as [html' html_options]. simpl.
  rewrite cookie_lookup_ne by exact Hcookie.
  unfold py_update. rewrite lookup_union, thermal_settings_of_delete_marker.
  f_equal. case_bool_decide as Hempty.
  - subst html_options. rewrite map_filter_empty, lookup_empty.
    rewrite option_union_None_l, lookup_union. reflexivity.
  - rewrite !lookup_union. reflexivity.
Qed.

(** The same outside thermal mode: the HTML directives first, then the
    default margins, the forced options and what the caller gave. *)
Lemma standard_merge_layers `{Frappe} (html : string)
    (options : option (gmap string pyval)) (key : string) :
  truthy (py_get_default (default ∅ options) "_is_thermal" (VBool false)) = false ->
  key <> "cookie" ->
  (prepare_options html options).2 !! key
  = (read_options_from_html html).2 !! key
    ∪ with_default_margins
        (py_update (delete "_is_thermal" (default ∅ options)) FORCED_OPTIONS) !! key.
Proof.
  intros Hstandard Hcookie. unfold prepare_options, with_default_margins.
  set (opts := default ∅ options) in *. rewrite Hstandard.
  destruct (read_options_from_html html) as [html' html_options]. simpl.
  rewrite cookie_lookup_ne by exact Hcookie.
  case_bool_decide as Hempty.
  - subst html_options. rewrite lookup_empty, option_union_None_l. reflexivity.
  - unfold py_update at 1. rewrite lookup_union. reflexivity.
Qed.

Lemma with_default_margins_lookup_other (options : gmap string pyval) (key : string) :
  key ∉ ["margin-top"; "margin-bottom"; "margin-left"; "margin-right"] ->
  with_default_margins options !! key = options !! key.
Proof.
  intros Hkey. unfold with_default_margins.
  rewrite !default_margin_lookup_ne by (intros <-; apply Hkey; set_solver).
  reflexivity.
Qed.

Lemma default_margin_lookup_eq (side : string) (options : gmap string pyval) :
  default_margin side options !! side
  = Some (if truthy (py_get options side) then py_get options side else VStr "15mm").
Proof.
  unfold default_margin, py_get.
  destruct (options !! side) as [v|] eqn:Hside; simpl.
  - destruct (truthy v); [exact Hside | apply lookup_insert_eq].
  - apply lookup_insert_eq.
Qed.

Lemma with_default_margins_lookup_side (options : gmap string pyval) (side : string) :
  side ∈ ["margin-top"; "margin-bottom"; "margin-left"; "margin-right"] ->
  with_default_margins options !! side
  = Some (if truthy (py_get options side) then py_get options side else VStr "15mm").
Proof.
  intros Hside. unfold with_default_margins.
  repeat (apply elem_of_cons in Hside as [->|Hside];
    [rewrite ?default_margin_lookup_ne by discriminate;
     rewrite default_margin_lookup_eq; unfold py_get;
     rewrite ?default_margin_lookup_ne by discriminate; reflexivity|]).
  inversion Hside.
Qed.

(** Outside thermal mode (marker absent or falsy) every HTML directive
    wins over the caller's option, over the forced options and over the
    default margins. *)
Theorem html_overrides_when_not_thermal `{Frappe} (html : string)
    (options : option (gmap string pyval)) (key : string) (value : pyval) :
  truthy (py_get_default (default ∅ options) "_is_thermal" (VBool false)) = false ->
  (read_options_from_html html).2 !! key = Some value ->
  key <> "cookie" ->
  (prepare_options html options).2 !! key = Some value.
Proof.
  intros Hstandard Hhtml Hcookie.
  rewrite standard_merge_layers by assumption. rewrite Hhtml.
  match goal with |- Some _ ∪ ?rest = _ => destruct rest end; reflexivity.
Qed.

Lemma html_overrides_when_not_thermal_witness :
  (prepare_options (H := example_frappe) "<html>"
     (Some {[ "margin-top" := VStr "5mm"; "_is_thermal" := VBool false ]})).2
    !! "margin-top" = Some (VStr "25mm").
Proof.
  apply (html_overrides_when_not_thermal (H := example_frappe)).
  - vm_compute. reflexivity.
  - vm_compute. reflexivity.
  - discriminate.
Defined.

(** Outside thermal mode a margin that the HTML does not set is the
    caller's when that is truthy and "15mm" otherwise: a caller's empty,
    zero or [None] margin is replaced by the default. *)
Theorem default_margins_when_not_thermal `{Frappe} (html : string)
    (options : option (gmap string pyval)) (side : string) :
  truthy (py_get_default (default ∅ options) "_is_thermal" (VBool false)) = false ->
  side ∈ ["margin-top"; "margin-bottom"; "margin-left"; "margin-right"] ->
  (read_options_from_html html).2 !! side = None ->
  (prepare_options html options).2 !! side
  = Some (if truthy (py_get (default ∅ options) side)
          then py_get (default ∅ options) side else VStr "15mm").
Proof.
  intros Hstandard Hside Hhtml.
  assert (Hget : py_get (py_update (delete "_is_thermal" (default ∅ options))
                   FORCED_OPTIONS) side = py_get (default ∅ options) side).
  { unfold py_get, py_update, FORCED_OPTIONS. rewrite lookup_union.
    repeat (apply elem_of_cons in Hside as [->|Hside];
      [rewrite !lookup_insert_ne by discriminate;
       rewrite lookup_empty, option_union_None_l;
       rewrite lookup_delete_ne by discriminate; reflexivity|]).
    inversion Hside. }
  rewrite standard_merge_layers;
    [|exact Hstandard
     |intros ->; repeat (apply elem_of_cons in Hside as [Hside|Hside];
        [discriminate|]); inversion Hside].
  rewrite Hhtml, option_union_None_l.
  rewrite with_default_margins_lookup_side by exact Hside.
  rewrite Hget. reflexivity.
Qed.

Lemma default_margins_when_not_thermal_witness :
  (prepare_options (H := example_frappe) "<html>"
     (Some {[ "margin-left" := VStr "" ]})).2 !! "margin-left" = Some (VStr "15mm").
Proof.
  rewrite (default_margins_when_not_thermal (H := example_frappe) "<html>"
             (Some {[ "margin-left" := VStr "" ]}) "margin-left").
  - vm_compute. reflexivity.
  - vm_compute. reflexivity.
  - repeat constructor.
  - vm_compute. reflexivity.
Defined.

(** In thermal mode an HTML directive that names neither a margin nor a
    page setting, and is neither [dpi] nor [zoom], is applied: it wins over
    the caller's option and over the forced options. *)
Theorem thermal_applies_other_directives `{Frappe} (html : string)
    (options : option (gmap string pyval)) (key : string) (value : pyval) :
  truthy (py_get_default (default ∅ options) "_is_thermal" (VBool false)) = true ->
  names_margin_or_page key = false ->
  key <> "dpi" -> key <> "zoom" -> key <> "cookie" ->
  (read_options_from_html html).2 !! key = Some value ->
  (prepare_options html options).2 !! key = Some value.
Proof.
  intros Hthermal Hnames Hdpi Hzoom Hcookie Hhtml.
  rewrite thermal_merge_layers by assumption.
  rewrite thermal_settings_lookup_other, option_union_None_l.
  - rewrite thermal_filter_keeps, Hhtml by exact Hnames.
    match goal with |- Some _ ∪ ?rest = _ => destruct rest end; reflexivity.
  - rewrite !not_elem_of_cons. repeat split;
      try (intros ->; vm_compute in Hnames; discriminate);
      try assumption.
    apply not_elem_of_nil.
Qed.

Lemma thermal_applies_other_directives_witness :
  (prepare_options (H := example_frappe) "<html>" (Some example_thermal_options)).2
    !! "orientation" = Some (VStr "Landscape").
Proof.
  apply (thermal_applies_other_directives (H := example_frappe));
    try discriminate; vm_compute; reflexivity.
Defined.

(** The caller cannot set [print-media-type], [background], [images],
    [quiet] or [encoding]: unless an HTML directive sets the key, it comes
    out with the forced value, thermal or not. *)
Theorem forced_options_override_caller `{Frappe} (html : string)
    (options : option (gmap string pyval)) (key : string) :
  key ∈ ["print-media-type"; "background"; "images"; "quiet"; "encoding"] ->
  (read_options_from_html html).2 !! key = None ->
  (prepare_options html options).2 !! key = FORCED_OPTIONS !! key.
Proof.
  intros Hkey Hhtml.
  assert (Hforced : is_Some (FORCED_OPTIONS !! key)).
  { unfold FORCED_OPTIONS.
    repeat (apply elem_of_cons in Hkey as [->|Hkey];
      [eexists; rewrite ?lookup_insert_ne by discriminate; apply lookup_insert_eq|]).
    inversion Hkey. }
  destruct Hforced as [forced Hforced].
  assert (Hcookie : key <> "cookie").
  { intros ->. repeat (apply elem_of_cons in Hkey as [Hkey|Hkey]; [discriminate|]).
    inversion Hkey. }
  assert (Hother : key ∉ ["margin-top"; "margin-bottom"; "margin-left"; "margin-right";
                          "page-width"; "page-height"; "dpi"; "zoom"]).
  { repeat (apply elem_of_cons in Hkey as [->|Hkey]; [key_not_listed|]).
    inversion Hkey. }
  destruct (truthy (py_get_default (default ∅ options) "_is_thermal" (VBool false)))
    eqn:Hmode.
  - rewrite thermal_merge_layers by assumption.
    rewrite thermal_settings_lookup_other, option_union_None_l by exact Hother.
    assert (filter (fun kv : string * pyval => names_margin_or_page kv.1 = false)
              (read_options_from_html html).2 !! key = None) as ->
      by (apply map_lookup_filter_None; left; exact Hhtml).
    rewrite option_union_None_l, Hforced.
    match goal with |- Some _ ∪ ?rest = _ => destruct rest end; reflexivity.
  - rewrite standard_merge_layers by assumption.
    rewrite Hhtml, option_union_None_l.
    rewrite with_default_margins_lookup_other.
    + unfold py_update. rewrite lookup_union, Hforced.
      match goal with |- Some _ ∪ ?rest = _ => destruct rest end; reflexivity.
    + intros Hin. apply Hother.
      repeat (apply elem_of_cons in Hin as [->|Hin]; [repeat constructor|]).
      inversion Hin.
Qed.

Lemma forced_options_override_caller_witness :
  (prepare_options (H := example_frappe) "<html>"
     (Some {[ "encoding" := VStr "latin-1" ]})).2 !! "encoding" = Some (VStr "UTF-8").
Proof.
  rewrite (forced_options_override_caller (H := example_frappe) "<html>"
             (Some {[ "encoding" := VStr "latin-1" ]}) "encoding").
  - vm_compute. reflexivity.
  - repeat constructor.
  - vm_compute. reflexivity.
Defined.

(** With a session the [cookie] entry is the session's, whatever the
    caller and the HTML say. *)
Theorem session_cookie_always_set `{Frappe} (html : string)
    (options : option (gmap string pyval)) (sid : string) :
  session_sid = Some sid ->
  sid <> "" ->
  (prepare_options html options).2 !! "cookie" = Some (VCookies [("sid", sid)]).
Proof.
  intros Hsession Hsid. unfold prepare_options.
  destruct (read_options_from_html html) as [html' html_options]. simpl.
  rewrite Hsession.
  destruct (String.eqb_spec sid "") as [Hempty|_]; [congruence|].
  apply lookup_insert_eq.
Qed.

Lemma session_cookie_always_set_witness :
  (prepare_options (H := example_frappe) "<html>"
     (Some {[ "cookie" := VStr "stale" ]})).2 !! "cookie"
  = Some (VCookies [("sid", "abc")]).
Proof.
  apply (session_cookie_always_set (H := example_frappe)).
  - reflexivity.
  - discriminate.
Defined.

(** Any other option of the caller goes through untouched: a key that is
    not the marker, the cookie, a forced option or one of the margin, page,
    dpi and zoom settings, and that the HTML does not set, comes out as it
    went in, present or absent. *)
Theorem other_options_pass_through `{Frappe} (html : string)
    (options : option (gmap string pyval)) (key : string) :
  key ∉ ["_is_thermal"; "cookie";
         "print-media-type"; "background"; "images"; "quiet"; "encoding";
         "margin-top"; "margin-bottom"; "margin-left"; "margin-right";
         "page-width"; "page-height"; "dpi"; "zoom"] ->
  (read_options_from_html html).2 !! key = None ->
  (prepare_options html options).2 !! key = default ∅ options !! key.
Proof.
  intros Hkey Hhtml.
  rewrite !not_elem_of_cons in Hkey.
  destruct Hkey as (Hmarker & Hcookie & Hf1 & Hf2 & Hf3 & Hf4 & Hf5
                    & Hm1 & Hm2 & Hm3 & Hm4 & Hp1 & Hp2 & Hdpi & Hzoom & _).
  assert (Hforced : FORCED_OPTIONS !! key = None).
  { unfold FORCED_OPTIONS. rewrite !lookup_insert_ne by congruence.
    apply lookup_empty. }
  destruct (truthy (py_get_default (default ∅ options) "_is_thermal" (VBool false)))
    eqn:Hmode.
  - rewrite thermal_merge_layers by assumption.
    rewrite thermal_settings_lookup_other, option_union_None_l
      by (rewrite !not_elem_of_cons; repeat split; try assumption;
          apply not_elem_of_nil).
    assert (filter (fun kv : string * pyval => names_margin_or_page kv.1 = false)
              (read_options_from_html html).2 !! key = None) as ->
      by (apply map_lookup_filter_None; left; exact Hhtml).
    rewrite Hforced, !option_union_None_l.
    apply lookup_delete_ne. congruence.
  - rewrite standard_merge_layers by assumption.
    rewrite Hhtml, option_union_None_l.
    rewrite with_default_margins_lookup_other
      by (rewrite !not_elem_of_cons; repeat split; try assumption;
          apply not_elem_of_nil).
    unfold py_update. rewrite lookup_union, Hforced, option_union_None_l.
    apply lookup_delete_ne. congruence.
Qed.

Lemma other_options_pass_through_witness :
  (prepare_options (H := example_frappe) "<html>"
     (Some {[ "no-pdf-compression" := VStr "" ]})).2 !! "no-pdf-compression"
  = Some (VStr "").
Proof.
  rewrite (other_options_pass_through (H := example_frappe) "<html>"
             (Some {[ "no-pdf-compression" := VStr "" ]}) "no-pdf-compression").
  - vm_compute. reflexivity.
  - key_not_listed.
  - vm_compute. reflexivity.
Defined.

(** What the merge step returns at the marker key is what the HTML reader
    gave there. *)
Lemma prepare_options_marker `{Frappe} (html : string)
    (options : option (gmap string pyval)) :
  (prepare_options html options).2 !! "_is_thermal"
  = (read_options_from_html html).2 !! "_is_thermal".
Proof.
  destruct (truthy (py_get_default (default ∅ options) "_is_thermal" (VBool false)))
    eqn:Hmode.
  - rewrite thermal_merge_layers by (assumption || discriminate).
    rewrite thermal_settings_lookup_other, option_union_None_l by key_not_listed.
    rewrite thermal_filter_keeps by reflexivity.
    rewrite lookup_delete_eq.
    assert (FORCED_OPTIONS !! "_is_thermal" = None) as -> by reflexivity.
    rewrite option_union_None_l. apply option_union_None_r.
  - rewrite standard_merge_layers by (assumption || discriminate).
    rewrite with_default_margins_lookup_other by key_not_listed.
    unfold py_update. rewrite lookup_union, lookup_delete_eq.
    assert (FORCED_OPTIONS !! "_is_thermal" = None) as -> by reflexivity.
    apply option_union_None_r.
Qed.

(** The marker is used up by the merge step: handed the mapping it has
    returned (the caller's own dict, updated in place), the step runs in
    standard mode, and an HTML directive for a margin or a page setting that
    the first pass kept out now goes in. *)
Theorem merged_options_are_not_thermal `{Frappe} (html : string)
    (options : option (gmap string pyval)) (key : string) (value : pyval) :
  (read_options_from_html html).2 !! "_is_thermal" = None ->
  (read_options_from_html html).2 !! key = Some value ->
  key <> "cookie" ->
  (prepare_options html (Some (prepare_options html options).2)).2 !! key
  = Some value.
Proof.
  intros Hreader Hhtml Hcookie.
  rewrite standard_merge_layers.
  - rewrite Hhtml.
    match goal with |- Some _ ∪ ?rest = _ => destruct rest end; reflexivity.
  - unfold py_get_default. simpl default at 2.
    rewrite prepare_options_marker, Hreader. reflexivity.
  - exact Hcookie.
Qed.

Lemma merged_options_are_not_thermal_witness :
  (prepare_options (H := example_frappe) "<html>" (Some example_thermal_options)).2
    !! "margin-top" = Some (VStr "0mm")
  /\ (prepare_options (H := example_frappe) "<html>"
        (Some (prepare_options (H := example_frappe) "<html>"
                 (Some example_thermal_options)).2)).2
       !! "margin-top" = Some (VStr "25mm").
Proof.
  split.
  - vm_compute. reflexivity.
  - apply (merged_options_are_not_thermal (H := example_frappe)).
    + vm_compute. reflexivity.
    + vm_compute. reflexivity.
    + discriminate.
Defined.

(** ** PDF Renderer *)

Lemma engine_call_lookup_other `{Frappe} (html : string)
    (options : option (gmap string pyval)) (key : string) :
  key ∉ ["disable-javascript"; "disable-local-file-access";
         "disable-smart-shrinking"] ->
  (engine_call html options).2 !! key
  = (prepare_options (scrub_urls html) options).2 !! key.
Proof.
  rewrite !not_elem_of_cons. intros (Hjs & Hfile & Hshrink & _).
  unfold engine_call.
  destruct (prepare_options (scrub_urls html) options) as [html' prepared]. simpl.
  assert (Hsecure : py_update prepared
            (<["disable-javascript" := VStr ""]>
            (<["disable-local-file-access" := VStr ""]> ∅)) !! key
          = prepared !! key).
  { unfold py_update. rewrite lookup_union.
    rewrite !lookup_insert_ne by congruence.
    rewrite lookup_empty. apply option_union_None_l. }
  destruct (version_gt get_wkhtmltopdf_version [0; 12; 3]%nat); [|exact Hsecure].
  unfold py_update at 1. rewrite lookup_union, lookup_singleton_ne by congruence.
  rewrite option_union_None_l. exact Hsecure.
Qed.

(** Whatever the caller and the HTML ask for, the engine is called with
    JavaScript and local file access disabled; with an engine newer than
    0.12.3 smart shrinking is disabled too. The options are never empty, so
    the [or {}] of line 232 never applies. *)
Theorem engine_always_locked_down `{Frappe} (html : string)
    (options : option (gmap string pyval)) :
  let engine_options := (engine_call html options).2 in
  engine_options !! "disable-javascript" = Some (VStr "")
  /\ engine_options !! "disable-local-file-access" = Some (VStr "")
  /\ (version_gt get_wkhtmltopdf_version [0; 12; 3]%nat = true ->
      engine_options !! "disable-smart-shrinking" = Some (VStr ""))
  /\ dict_or_empty engine_options = engine_options.
Proof.
  assert (Hflags : (engine_call html options).2 !! "disable-javascript"
                   = Some (VStr "")
                   /\ (engine_call html options).2 !! "disable-local-file-access"
                      = Some (VStr "")
                   /\ (version_gt get_wkhtmltopdf_version [0; 12; 3]%nat = true ->
                       (engine_call html options).2 !! "disable-smart-shrinking"
                       = Some (VStr ""))).
  { unfold engine_call.
    destruct (prepare_options (scrub_urls html) options) as [html' prepared]. simpl.
    assert (Hsecure : forall flag,
              flag ∈ ["disable-javascript"; "disable-local-file-access"] ->
              py_update prepared
                (<["disable-javascript" := VStr ""]>
                (<["disable-local-file-access" := VStr ""]> ∅)) !! flag
              = Some (VStr "")).
    { intros flag Hflag. unfold py_update. rewrite lookup_union.
      repeat (apply elem_of_cons in Hflag as [->|Hflag];
        [rewrite ?lookup_insert_ne by discriminate; rewrite lookup_insert_eq;
         destruct (prepared !! _); reflexivity|]).
      inversion Hflag. }
    destruct (version_gt get_wkhtmltopdf_version [0; 12; 3]%nat).
    - split; [|split].
      + unfold py_update at 1. rewrite lookup_union.
        rewrite lookup_singleton_ne, option_union_None_l by discriminate.
        apply Hsecure. repeat constructor.
      + unfold py_update at 1. rewrite lookup_union.
        rewrite lookup_singleton_ne, option_union_None_l by discriminate.
        apply Hsecure. repeat constructor.
      + intros _. unfold py_update at 1. rewrite lookup_union, lookup_singleton_eq.
        match goal with |- Some _ ∪ ?rest = _ => destruct rest end; reflexivity.
    - repeat split; try (apply Hsecure; repeat constructor). discriminate. }
  destruct Hflags as (Hjs & Hfile & Hshrink).
  repeat split; try assumption.
  unfold dict_or_empty. case_bool_decide as Hempty; [|reflexivity].
  rewrite Hempty, lookup_empty in Hjs. discriminate.
Qed.

(** A failure of the engine or of the parser that is not a recognized
    content error leaves [get_pdf] as it is: another exception, or an
    [OSError] with another message. *)
Theorem other_failures_propagate `{PdfKit, PyPDF2, Frappe} (html : string)
    (options : option (gmap string pyval)) (output : option (PdfWriter pdf_page))
    (e : exn) :
  (forall msg, e = OSError msg -> is_content_error e = false) ->
  (exists produced,
     from_string (engine_call html options).1
       (dict_or_empty (engine_call html options).2) = Raised e produced)
  \/ (exists filedata,
        from_string (engine_call html options).1
          (dict_or_empty (engine_call html options).2) = Returned filedata
        /\ PdfReader filedata = raise e) ->
  get_pdf html options output = raise e.
Proof.
  intros Hother Hfails. unfold get_pdf.
  destruct (engine_call html options) as [html' options']. simpl in Hfails.
  assert (Hrender : render html' options' output = raise e).
  { unfold render.
    destruct Hfails as [[produced ->]|(filedata & -> & ->)];
      (destruct e as [msg|msg|msg|var|msg]; try reflexivity;
       pose proof (Hother msg eq_refl) as Hcontent;
       unfold raise; cbv beta iota zeta; rewrite Hcontent; reflexivity). }
  rewrite Hrender. reflexivity.
Qed.

Lemma other_failures_propagate_witness :
  get_pdf (H := {| from_string := fun _ _ => Raised (OSError "No wkhtmltopdf executable found") [] |})
    (H0 := example_pypdf2) (H1 := example_frappe) "<html>" None None
  = raise (OSError "No wkhtmltopdf executable found").
Proof.
  apply (other_failures_propagate
    (H := {| from_string := fun _ _ => Raised (OSError "No wkhtmltopdf executable found") [] |})
    (H0 := example_pypdf2) (H1 := example_frappe)).
  - intros msg Hmsg. injection Hmsg as <-. vm_compute. reflexivity.
  - left. exists []. reflexivity.
Defined.

Lemma thermal_settings_captures (options : gmap string pyval) (key : string)
    (value : pyval) :
  key ∈ ["margin-top"; "margin-bottom"; "margin-left"; "margin-right";
         "page-width"; "page-height"; "dpi"; "zoom"] ->
  options !! key = Some value ->
  thermal_settings_of options !! key = Some value.
Proof.
  intros Hkey Hvalue. unfold thermal_settings_of.
  repeat (apply elem_of_cons in Hkey as [->|Hkey];
    [rewrite ?lookup_insert_ne by discriminate; rewrite lookup_insert_eq;
     unfold py_get, py_get_default; rewrite Hvalue; reflexivity|]).
  inversion Hkey.
Qed.

Lemma custom_options_captured (silent_print_format : SilentPrintFormat)
    (doc : option Document) (key : string) :
  page_size silent_print_format = Some "Custom" ->
  key ∈ ["margin-top"; "margin-bottom"; "margin-left"; "margin-right";
         "page-width"; "page-height"; "dpi"; "zoom"] ->
  is_Some (get_pdf_options silent_print_format doc !! key).
Proof.
  intros Hsize Hkey. unfold get_pdf_options.
  rewrite bool_decide_eq_true_2 by exact Hsize.
  repeat (apply elem_of_cons in Hkey as [->|Hkey];
    [eexists; rewrite ?lookup_insert_ne by discriminate; apply lookup_insert_eq|]).
  inversion Hkey.
Qed.

(** From the format to the engine: for page size "Custom" the margins, the
    page width and height, the dpi and the zoom that the option builder sets
    are the ones the engine is called with, whatever directives the HTML
    carries. *)
Theorem custom_format_reaches_engine `{Frappe} (html : string)
    (silent_print_format : SilentPrintFormat) (doc : option Document)
    (key : string) :
  page_size silent_print_format = Some "Custom" ->
  key ∈ ["margin-top"; "margin-bottom"; "margin-left"; "margin-right";
         "page-width"; "page-height"; "dpi"; "zoom"] ->
  (engine_call html (Some (get_pdf_options silent_print_format doc))).2 !! key
  = get_pdf_options silent_print_format doc !! key.
Proof.
  intros Hsize Hkey.
  destruct (custom_options_captured silent_print_format doc key Hsize Hkey)
    as [value Hvalue].
  assert (Hthermal : truthy (py_get_default
            (default ∅ (Some (get_pdf_options silent_print_format doc)))
            "_is_thermal" (VBool false)) = true).
  { simpl default. unfold py_get_default, get_pdf_options.
    rewrite bool_decide_eq_true_2 by exact Hsize.
    rewrite !lookup_insert_ne by discriminate. rewrite lookup_insert_eq.
    reflexivity. }
  rewrite engine_call_lookup_other.
  - rewrite thermal_merge_layers.
    + simpl default.
      rewrite (thermal_settings_captures _ _ _ Hkey Hvalue), Hvalue.
      match goal with |- Some _ ∪ ?rest = _ => destruct rest end; reflexivity.
    + exact Hthermal.
    + intros ->. repeat (apply elem_of_cons in Hkey as [Hkey|Hkey]; [discriminate|]).
      inversion Hkey.
  - intros Hin.
    repeat (apply elem_of_cons in Hkey as [->|Hkey];
      [repeat (apply elem_of_cons in Hin as [Hin|Hin]; [discriminate|]);
       inversion Hin|]).
    inversion Hkey.
Qed.

Lemma custom_format_reaches_engine_witness :
  (engine_call (H := example_frappe) "<html>"
     (Some (get_pdf_options example_format None))).2 !! "page-width"
  = Some (VStr "72mm").
Proof.
  rewrite (custom_format_reaches_engine (H := example_frappe) "<html>"
             example_format None "page-width").
  - vm_compute. reflexivity.
  - reflexivity.
  - repeat constructor.
Defined.

(** ** Whitespace Cropper *)

Lemma py_max_ge_l (a b : Q) : (a <= py_max a b)%Q.
Proof. unfold py_max. destruct (Qlt_le_dec a b); lra. Qed.

Lemma py_max_ge_r (a b : Q) : (b <= py_max a b)%Q.
Proof. unfold py_max. destruct (Qlt_le_dec a b); lra. Qed.

Lemma lowest_of_lines_ge_start (lines : list Line) (max_y : Q) :
  (max_y <= lowest_of_lines max_y lines)%Q.
Proof.
  unfold lowest_of_lines. revert max_y.
  induction lines as [|line lines IH]; intros max_y; simpl; [lra|].
  eapply Qle_trans; [|apply IH].
  destruct (line_bbox line); [apply py_max_ge_l | lra].
Qed.

Lemma lowest_of_lines_ge_line (lines : list Line) (max_y : Q) (line : Line)
    (bbox : Q * Q * Q * Q) :
  line ∈ lines -> line_bbox line = Some bbox ->
  (bbox_bottom bbox <= lowest_of_lines max_y lines)%Q.
Proof.
  intros Hin Hbbox. revert max_y.
  induction lines as [|first lines IH]; intros max_y; [inversion Hin|].
  apply elem_of_cons in Hin as [<-|Hin].
  - unfold lowest_of_lines. simpl. rewrite Hbbox.
    eapply Qle_trans; [apply (py_max_ge_r max_y)|].
    apply (lowest_of_lines_ge_start lines).
  - apply (IH Hin).
Qed.

Lemma lowest_step_ge_start (max_y : Q) (block : Block) :
  (max_y <= lowest_step max_y block)%Q.
Proof.
  unfold lowest_step. destruct (block_bbox block); [apply py_max_ge_l|].
  destruct (block_lines block); [apply lowest_of_lines_ge_start | lra].
Qed.

Lemma fold_lowest_step_ge_start (blocks : list Block) (max_y : Q) :
  (max_y <= fold_left lowest_step blocks max_y)%Q.
Proof.
  revert max_y. induction blocks as [|block blocks IH]; intros max_y; simpl; [lra|].
  eapply Qle_trans; [apply (lowest_step_ge_start max_y block) | apply IH].
Qed.

Lemma fold_lowest_step_ge_block (blocks : list Block) (max_y bottom : Q)
    (block : Block) :
  block ∈ blocks ->
  (forall start, (bottom <= lowest_step start block)%Q) ->
  (bottom <= fold_left lowest_step blocks max_y)%Q.
Proof.
  intros Hin Hstep. revert max_y.
  induction blocks as [|first blocks IH]; intros max_y; [inversion Hin|].
  apply elem_of_cons in Hin as [<-|Hin]; simpl.
  - eapply Qle_trans; [apply (Hstep max_y) | apply fold_lowest_step_ge_start].
  - apply (IH Hin).
Qed.

Lemma lowest_point_ge_block_bottom (blocks : list Block) (block : Block)
    (bbox : Q * Q * Q * Q) :
  block ∈ blocks -> block_bbox block = Some bbox ->
  (bbox_bottom bbox <= lowest_point blocks)%Q.
Proof.
  intros Hin Hbbox.
  change (lowest_point blocks) with (fold_left lowest_step blocks 0%Q).
  apply (fold_lowest_step_ge_block blocks 0 _ block Hin).
  intros start. unfold lowest_step. rewrite Hbbox. apply py_max_ge_r.
Qed.

(** The lowest point found on a page is not negative, and no bounding box
    that is read ends below it: not the box of a block, and not the box of a
    line of a block that has none. *)
Theorem lowest_point_bounds_content (blocks : list Block) :
  (0 <= lowest_point blocks)%Q
  /\ (forall block bbox,
        block ∈ blocks -> block_bbox block = Some bbox ->
        (bbox_bottom bbox <= lowest_point blocks)%Q)
  /\ (forall block lines line bbox,
        block ∈ blocks -> block_bbox block = None ->
        block_lines block = Some lines ->
        line ∈ lines -> line_bbox line = Some bbox ->
        (bbox_bottom bbox <= lowest_point blocks)%Q).
Proof.
  change (lowest_point blocks) with (fold_left lowest_step blocks 0%Q).
  split; [apply fold_lowest_step_ge_start|]. split.
  - intros block bbox Hin Hbbox.
    apply (lowest_point_ge_block_bottom blocks block bbox Hin Hbbox).
  - intros block lines line bbox Hin Hnone Hlines Hline Hbbox.
    apply (fold_lowest_step_ge_block blocks 0 _ block Hin).
    intros start. unfold lowest_step. rewrite Hnone, Hlines.
    apply (lowest_of_lines_ge_line lines start line bbox Hline Hbbox).
Qed.

(** A crop box, when one is set, keeps the left, top and right edges of the
    page, ends more than 20 points above the page height, and ends at least
    15 points below every block box: cropping removes blank space only. *)
Theorem crop_box_keeps_content `{Fitz} (rect new_rect : Rect) (blocks : list Block) :
  crop_decision rect (lowest_point blocks) = Some new_rect ->
  x0 new_rect = x0 rect /\ y0 new_rect = y0 rect /\ x1 new_rect = x1 rect
  /\ (y1 new_rect + 20 < rect_height rect)%Q
  /\ (forall block bbox,
        block ∈ blocks -> block_bbox block = Some bbox ->
        (bbox_bottom bbox + 15 <= y1 new_rect)%Q).
Proof.
  unfold crop_decision. intros Hcrop.
  destruct (Qlt_le_dec 0 (lowest_point blocks)); [|discriminate].
  destruct (Qlt_le_dec 20 (rect_height rect - (lowest_point blocks + 15)));
    [|discriminate].
  injection Hcrop as <-. simpl.
  repeat split; try reflexivity; [lra|].
  intros block bbox Hin Hbbox.
  pose proof (lowest_point_ge_block_bottom blocks block bbox Hin Hbbox). lra.
Qed.

Lemma crop_box_keeps_content_witness :
  (y1 {| x0 := 0; y0 := 0; x1 := 200; y1 := 40 + 15 |} + 20
   < rect_height (Fitz := example_fitz true) (fst (example_page 40)))%Q.
Proof.
  apply (crop_box_keeps_content (H := example_fitz true) (fst (example_page 40))
           {| x0 := 0; y0 := 0; x1 := 200; y1 := 40 + 15 |} (snd (example_page 40))).
  vm_compute. reflexivity.
Defined.

Lemma for_each_length {A : Type} (body : A -> result A) (l l' : list A) :
  for_each body l = ret l' -> length l' = length l.
Proof.
  revert l'. induction l as [|a l IH]; intros l'; simpl.
  - intros Hret. injection Hret as <-. reflexivity.
  - destruct (body a) as [e|a']; [discriminate|]. simpl.
    destruct (for_each body l) as [e|rest]; [discriminate|]. simpl.
    intros Hret. injection Hret as <-. simpl. rewrite (IH rest eq_refl).
    reflexivity.
Qed.

Lemma for_each_unchanged {A : Type} (body : A -> result A) (l : list A) :
  (forall a, a ∈ l -> body a = ret a) -> for_each body l = ret l.
Proof.
  induction l as [|a l IH]; intros Hbody; simpl; [reflexivity|].
  rewrite (Hbody a) by (apply elem_of_cons; left; reflexivity). simpl.
  rewrite IH; [reflexivity|].
  intros b Hb. apply Hbody, elem_of_cons. right. exact Hb.
Qed.

(** The cropper ends in one of two ways. Either every step went through:
    the bytes are the serialization of a document with as many pages as were
    opened, and nothing is logged. Or it fell back: the bytes are the input
    and exactly one error is logged under the title "Silent Print". *)
Theorem crop_outcomes `{Fitz} (pdf_bytes : list Byte.byte) :
  (exists pdf_doc cropped output,
     fitz_open pdf_bytes = ret pdf_doc
     /\ for_each crop_page pdf_doc = ret cropped
     /\ length cropped = length pdf_doc
     /\ tobytes cropped = ret output
     /\ crop_pdf_whitespace pdf_bytes = (output, []))
  \/ (exists message,
        crop_pdf_whitespace pdf_bytes = (pdf_bytes, [(message, "Silent Print")])).
Proof.
  unfold crop_pdf_whitespace, crop_body.
  destruct import_fitz as [e|[]]; simpl.
  { right. destruct e; eexists; reflexivity. }
  destruct (fitz_open pdf_bytes) as [e|pdf_doc]; simpl.
  { right. destruct e; eexists; reflexivity. }
  destruct (for_each crop_page pdf_doc) as [e|cropped] eqn:Hloop; simpl.
  { right. destruct e; eexists; reflexivity. }
  destruct (tobytes cropped) as [e|output] eqn:Hbytes; simpl.
  { right. destruct e; eexists; reflexivity. }
  destruct (close cropped) as [e|[]]; simpl.
  { right. destruct e; eexists; reflexivity. }
  left. exists pdf_doc, cropped, output.
  repeat split; try assumption.
  apply (for_each_length _ _ _ Hloop).
Qed.

(** A document whose pages all are blank or have their content end within
    35 points of the page height is serialized as it was opened: no crop box
    is set on any page. *)
Theorem tight_document_left_alone `{Fitz} (pdf_bytes output : list Byte.byte)
    (pdf_doc : list fitz_page) :
  import_fitz = ret tt ->
  fitz_open pdf_bytes = ret pdf_doc ->
  (forall page, page ∈ pdf_doc ->
     exists blocks,
       get_text_blocks page = ret blocks
       /\ (blocks = []
           \/ (rect_height (page_rect page) - lowest_point blocks <= 35)%Q)) ->
  tobytes pdf_doc = ret output ->
  close pdf_doc = ret tt ->
  crop_pdf_whitespace pdf_bytes = (output, []).
Proof.
  intros Himport Hopen Htight Hbytes Hclose.
  assert (Hloop : for_each crop_page pdf_doc = ret pdf_doc).
  { apply for_each_unchanged. intros page Hpage.
    destruct (Htight page Hpage) as (blocks & Hblocks & Hcase).
    unfold crop_page. rewrite Hblocks. simpl.
    destruct Hcase as [->|Hgap]; [reflexivity|].
    destruct blocks as [|block blocks]; [reflexivity|].
    rewrite crop_decision_spec.
    destruct (Qlt_le_dec 0 _); [|reflexivity].
    destruct (Qlt_le_dec 35 _); [lra|reflexivity]. }
  unfold crop_pdf_whitespace, crop_body.
  rewrite Himport. simpl. rewrite Hopen. simpl. rewrite Hloop. simpl.
  rewrite Hbytes. simpl. rewrite Hclose. reflexivity.
Qed.

Lemma tight_document_left_alone_witness :
  crop_pdf_whitespace (H := example_fitz_with [example_page 90; example_page 70])
    [Byte.x25]
  = ([Byte.x00; Byte.x00], []).
Proof.
  apply (tight_document_left_alone
           (H := example_fitz_with [example_page 90; example_page 70])
           [Byte.x25] [Byte.x00; Byte.x00] [example_page 90; example_page 70]);
    try reflexivity.
  intros page Hpage.
  apply elem_of_cons in Hpage as [->|Hpage];
    [|apply elem_of_cons in Hpage as [->|Hpage]; [|inversion Hpage]];
    eexists; (split; [reflexivity|]); right; vm_compute; discriminate.
Defined.

(** ** Callers *)

(** Without an accumulator [get_pdf] returns bytes. *)
Lemma get_pdf_fresh_is_filedata `{PdfKit, PyPDF2, Frappe} (html : string)
    (options : option (gmap string pyval)) (rendered : pdf_output pdf_page) :
  get_pdf html options None = ret rendered ->
  exists filedata, rendered = FileData filedata.
Proof.
  unfold get_pdf. destruct (engine_call html options) as [html' options'].
  unfold render.
  destruct (from_string html' (dict_or_empty options')) as [filedata|e produced].
  - destruct (PdfReader filedata) as [e|pages].
    + destruct e as [m|m|m|v|m]; try discriminate.
      destruct (is_content_error (OSError m)); [|discriminate].
      destruct filedata; discriminate.
    + simpl. intros Hret. injection Hret as <-. eexists. reflexivity.
  - destruct e as [m|m|m|v|m]; try discriminate.
    destruct (is_content_error (OSError m)); discriminate.
Qed.

(** The dict [create_pdf] returns once the render has gone through. *)
Lemma create_pdf_after_render `{Desk, PdfKit, PyPDF2, Frappe, Fitz}
    (doctype name silent_print_format html : string) (doc : option Document)
    (no_letterhead : Z) (silent_print_format_doc : SilentPrintFormat)
    (raw : list Byte.byte) :
  get_print doctype name silent_print_format doc no_letterhead = ret html ->
  db_exists "Silent Print Format" silent_print_format = true ->
  get_format_doc silent_print_format = ret silent_print_format_doc ->
  get_pdf html
    (Some (get_pdf_options silent_print_format_doc
             (load_actual_doc silent_print_format_doc doctype name doc)))
    None = ret (FileData raw) ->
  create_pdf doctype name silent_print_format doc no_letterhead
  = ret (Some {| pdf_base64 :=
                   b64encode (if crop_whitespace silent_print_format_doc
                              then (crop_pdf_whitespace raw).1 else raw);
                 print_type := default_print_type silent_print_format_doc |},
         if crop_whitespace silent_print_format_doc
         then (crop_pdf_whitespace raw).2 else []).
Proof.
  intros Hprint Hexists Hformat Hrender. unfold create_pdf.
  rewrite Hprint. simpl. rewrite Hexists. simpl. rewrite Hformat. simpl.
  rewrite Hrender. simpl.
  destruct (crop_whitespace silent_print_format_doc); [|reflexivity].
  destruct (crop_pdf_whitespace raw) as [cropped logged]. reflexivity.
Qed.

(** Once the print HTML is there, the format exists and loads and the
    render goes through, [create_pdf] returns: the cropper cannot make it
    fail. The result carries the format's default print type and the
    encoding of the rendered bytes, cropped when the format asks for it. *)
Theorem create_pdf_survives_cropper `{Desk, PdfKit, PyPDF2, Frappe, Fitz}
    (doctype name silent_print_format html : string) (doc : option Document)
    (no_letterhead : Z) (silent_print_format_doc : SilentPrintFormat)
    (rendered : pdf_output pdf_page) :
  get_print doctype name silent_print_format doc no_letterhead = ret html ->
  db_exists "Silent Print Format" silent_print_format = true ->
  get_format_doc silent_print_format = ret silent_print_format_doc ->
  get_pdf html
    (Some (get_pdf_options silent_print_format_doc
             (load_actual_doc silent_print_format_doc doctype name doc)))
    None = ret rendered ->
  exists raw pdf logged,
    rendered = FileData raw
    /\ create_pdf doctype name silent_print_format doc no_letterhead
       = ret (Some {| pdf_base64 := b64encode pdf;
                      print_type := default_print_type silent_print_format_doc |},
              logged)
    /\ (crop_whitespace silent_print_format_doc = false -> pdf = raw /\ logged = [])
    /\ (crop_whitespace silent_print_format_doc = true ->
        (pdf, logged) = crop_pdf_whitespace raw)
    /\ (forall e, crop_body raw = raise e -> pdf = raw).
Proof.
  intros Hprint Hexists Hformat Hrender.
  destruct (get_pdf_fresh_is_filedata _ _ _ Hrender) as [raw ->].
  exists raw,
    (if crop_whitespace silent_print_format_doc
     then (crop_pdf_whitespace raw).1 else raw),
    (if crop_whitespace silent_print_format_doc
     then (crop_pdf_whitespace raw).2 else []).
  split; [reflexivity|].
  split; [apply (create_pdf_after_render _ _ _ html); assumption|].
  destruct (crop_whitespace silent_print_format_doc).
  - split; [discriminate|]. split; [intros _; symmetry; apply surjective_pairing|].
    intros e He. apply (crop_body_raises_returns_input raw e He).
  - split; [intros _; split; reflexivity|]. split; [discriminate|].
    intros e _. reflexivity.
Qed.

Lemma create_pdf_survives_cropper_witness :
  create_pdf (H := example_desk) (H0 := example_pdfkit) (H1 := example_pypdf2)
    (H2 := example_frappe) (H3 := example_fitz false)
    "Sales Invoice" "INV-1" "Receipt" None 0
  = ret (Some {| pdf_base64 := "AAA"; print_type := None |},
         [("PyMuPDF (fitz) not installed. PDF cropping disabled.", "Silent Print")]).
Proof.
  destruct (create_pdf_survives_cropper
              (H := example_desk) (H0 := example_pdfkit) (H1 := example_pypdf2)
              (H2 := example_frappe) (H3 := example_fitz false)
              "Sales Invoice" "INV-1" "Receipt" "<html>" None 0 example_format
              (FileData [Byte.x00; Byte.x00; Byte.x00])
              eq_refl eq_refl eq_refl eq_refl)
    as (raw & pdf & logged & Hraw & Hcreate & _ & Hcrop & _).
  rewrite Hcreate.
  injection Hraw as <-.
  specialize (Hcrop eq_refl). injection Hcrop as -> ->. reflexivity.
Defined.

(** A format that does not exist: [create_pdf] returns [None] without
    rendering, and [print_silently], which subscripts that result, raises
    and publishes nothing. *)
Theorem missing_format_breaks_print_silently `{Desk, PdfKit, PyPDF2, Frappe, Fitz}
    (doctype name print_format html : string) :
  get_print doctype name print_format None 0 = ret html ->
  db_exists "Silent Print Format" print_format = false ->
  create_pdf doctype name print_format None 0 = ret (None, [])
  /\ (forall print_type,
        print_silently doctype name print_format print_type
        = raise (OtherException "'NoneType' object is not subscriptable")).
Proof.
  intros Hprint Hmissing.
  assert (Hcreate : create_pdf doctype name print_format None 0 = ret (None, [])).
  { unfold create_pdf. rewrite Hprint. simpl. rewrite Hmissing. reflexivity. }
  split; [exact Hcreate|].
  intros print_type. unfold print_silently. rewrite Hcreate. reflexivity.
Qed.

Lemma missing_format_breaks_print_silently_witness :
  print_silently (H := example_desk) (H0 := example_pdfkit) (H1 := example_pypdf2)
    (H2 := example_frappe) (H3 := example_fitz false)
    "Sales Invoice" "INV-1" "Label" "PDF"
  = raise (OtherException "'NoneType' object is not subscriptable").
Proof.
  apply (missing_format_breaks_print_silently
           (H := example_desk) (H0 := example_pdfkit) (H1 := example_pypdf2)
           (H2 := example_frappe) (H3 := example_fitz false)
           "Sales Invoice" "INV-1" "Label" "<html>"); reflexivity.
Defined.

(** What [print_silently] publishes when the render goes through: one
    "print-silently" event for the configured print user, whose message has
    six entries; its [print_type] is the format's default print type for
    every value of the argument [print_type], which is never read. *)
Theorem print_silently_publishes_format_type `{Desk, PdfKit, PyPDF2, Frappe, Fitz}
    (doctype name print_format html : string)
    (silent_print_format_doc : SilentPrintFormat) (rendered : pdf_output pdf_page)
    (print_type : string) :
  get_print doctype name print_format None 0 = ret html ->
  db_exists "Silent Print Format" print_format = true ->
  get_format_doc print_format = ret silent_print_format_doc ->
  get_pdf html
    (Some (get_pdf_options silent_print_format_doc
             (load_actual_doc silent_print_format_doc doctype name None)))
    None = ret rendered ->
  exists published logged,
    print_silently doctype name print_format print_type = ret (published, logged)
    /\ event published = "print-silently"
    /\ user published = get_single_value "Silent Print Settings" "print_user"
    /\ size (message published) = 6%nat
    /\ message published !! "print_type"
       = Some (py_of_option (default_print_type silent_print_format_doc))
    /\ message published !! "tab_id"
       = Some (get_single_value "Silent Print Settings" "tab_id")
    /\ message published !! "doctype" = Some (VStr doctype)
    /\ message published !! "name" = Some (VStr name)
    /\ message published !! "print_format" = Some (VStr print_format).
Proof.
  intros Hprint Hexists Hformat Hrender.
  destruct (get_pdf_fresh_is_filedata _ _ _ Hrender) as [raw ->].
  unfold print_silently.
  rewrite (create_pdf_after_render _ _ _ html None 0 silent_print_format_doc raw)
    by assumption.
  simpl. eexists _, _. split; [reflexivity|]. simpl.
  split; [reflexivity|]. split; [reflexivity|]. split.
  { repeat (rewrite map_size_insert_None;
      [|rewrite ?lookup_insert_ne by discriminate; apply lookup_empty]).
    rewrite map_size_empty. reflexivity. }
  repeat split; rewrite ?lookup_insert_ne by discriminate; apply lookup_insert_eq.
Qed.

Lemma print_silently_publishes_format_type_witness :
  exists published logged,
    print_silently (H := example_desk) (H0 := example_pdfkit) (H1 := example_pypdf2)
      (H2 := example_frappe) (H3 := example_fitz false)
      "Sales Invoice" "INV-1" "Receipt" "RAW" = ret (published, logged)
    /\ message published !! "print_type" = Some VNone.
Proof.
  destruct (print_silently_publishes_format_type
              (H := example_desk) (H0 := example_pdfkit) (H1 := example_pypdf2)
              (H2 := example_frappe) (H3 := example_fitz false)
              "Sales Invoice" "INV-1" "Receipt" "<html>" example_format
              (FileData [Byte.x00; Byte.x00; Byte.x00]) "RAW"
              eq_refl eq_refl eq_refl eq_refl)
    as (published & logged & Hpublished & _ & _ & _ & Htype & _).
  exists published, logged. split; [exact Hpublished | exact Htype].
Defined.

(** With [auto_height] set, no document passed and a document that cannot
    be loaded, the failure is swallowed: the options are those of a format
    without a document, the page height the configured one or "297mm". *)
Theorem unloadable_document_falls_back `{Desk}
    (silent_print_format_doc : SilentPrintFormat) (doctype name : string) (e : exn) :
  page_size silent_print_format_doc = Some "Custom" ->
  get_doc doctype name = raise e ->
  get_pdf_options silent_print_format_doc
    (load_actual_doc silent_print_format_doc doctype name None)
  = get_pdf_options silent_print_format_doc None
  /\ get_pdf_options silent_print_format_doc
       (load_actual_doc silent_print_format_doc doctype name None) !! "page-height"
     = Some (VStr (ensure_unit (str_or (custom_height silent_print_format_doc) "297mm"))).
Proof.
  intros Hsize Hload.
  assert (Hdoc : load_actual_doc silent_print_format_doc doctype name None = None).
  { unfold load_actual_doc. rewrite Hload.
    destruct (auto_height silent_print_format_doc); reflexivity. }
  rewrite Hdoc. split; [reflexivity|].
  unfold get_pdf_options. rewrite bool_decide_eq_true_2 by exact Hsize.
  rewrite lookup_insert_ne by discriminate. rewrite lookup_insert_eq.
  destruct (auto_height silent_print_format_doc); reflexivity.
Qed.

Lemma unloadable_document_falls_back_witness :
  get_pdf_options
    {| page_size := Some "Custom"; custom_width := None; custom_height := None;
       auto_height := true; crop_whitespace := false; default_print_type := None |}
    (load_actual_doc (H := example_desk)
       {| page_size := Some "Custom"; custom_width := None; custom_height := None;
          auto_height := true; crop_whitespace := false; default_print_type := None |}
       "Sales Invoice" "INV-1" None) !! "page-height"
  = Some (VStr "297mm").
Proof.
  apply (unloadable_document_falls_back (H := example_desk)
    {| page_size := Some "Custom"; custom_width := None; custom_height := None;
       auto_height := true; crop_whitespace := false; default_print_type := None |}
    "Sales Invoice" "INV-1" (OtherException "DoesNotExistError")); reflexivity.
Defined.
